(** * CSV to Excel converter: the record pipeline of [csv-to-excel-inpu.py]

    A shallow embedding of the reader, the name normalisation, the duplicate
    detector, the spreadsheet writer and the conversion loop of
    [product-price-php-exporter/Version1/csv-to-excel-inpu.py], and the
    properties of the pipeline proved over it.

    A Python [str] is a sequence of Unicode code points: it is modelled as a
    list of code points ([N]).  Python integers are unbounded: counters and row
    numbers are [Z].  The set of seen names is a [gset], the worksheet a finite
    map from (row, column) to the cell.

    The writer is embedded twice.  The first embedding keeps, for each cell,
    the value the converter hands to [worksheet.cell]: it is what the
    decisions of the loop, the counters and the order of the rows are
    proved over.  The second, in [Xl], keeps what openpyxl makes of that
    value (a text cut to 32,767 characters and typed as string, formula or
    error, or an exception for a control character), and has the
    exceptions of the library and of [workbook.save]; the statements about
    the contents of the saved sheet and about the ways a conversion ends
    are made over it.  The two are related by [library_convert_returned]. *)

From stdpp Require Import gmap list sets.
From Stdlib Require Import ZArith Lia.

#[local] Set Warnings "-clear-no-such-hyp,-abstract-large-number".

Local Open Scope Z_scope.

(** ** Python strings *)

Module Py.

Definition char := N.
Definition str := list char.

(** [str.isspace] on one code point: the code points CPython treats as
    whitespace in [str.strip] and [str.split] without arguments. *)
Definition is_space (c : char) : bool :=
  ((9 <=? c) && (c <=? 13) || (28 <=? c) && (c <=? 32)
   || (c =? 133) || (c =? 160) || (c =? 5760)
   || (8192 <=? c) && (c <=? 8202)
   || (c =? 8232) || (c =? 8233) || (c =? 8239) || (c =? 8287)
   || (c =? 12288))%N.

(** The truth value of a string, [bool(s)]: [not s] is its negation. *)
Definition truthy (s : str) : bool :=
  match s with [] => false | _ :: _ => true end.

Fixpoint lstrip (s : str) : str :=
  match s with
  | [] => []
  | c :: s' => if is_space c then lstrip s' else s
  end.

Fixpoint rstrip (s : str) : str :=
  match s with
  | [] => []
  | c :: s' =>
      let t := rstrip s' in
      if is_space c && negb (truthy t) then [] else c :: t
  end.

(** [s.strip()] *)
Definition strip (s : str) : str := lstrip (rstrip s).

(** Puts a word in front of a list of words unless it is empty. *)
Definition push_word (w : str) (ws : list str) : list str :=
  match w with [] => ws | _ :: _ => w :: ws end.

(** The scan behind [s.split()]: the word that is open at the front of [s]
    and the complete words behind it. *)
Fixpoint split_scan (s : str) : str * list str :=
  match s with
  | [] => ([], [])
  | c :: s' =>
      let '(w, ws) := split_scan s' in
      if is_space c then ([], push_word w ws) else (c :: w, ws)
  end.

(** [s.split()]: the maximal runs of non-whitespace code points. *)
Definition split (s : str) : list str :=
  let '(w, ws) := split_scan s in push_word w ws.

(** [' '.join(ws)] *)
Fixpoint join_space (ws : list str) : str :=
  match ws with
  | [] => []
  | [w] => w
  | w :: ws' => w ++ 32%N :: join_space ws'
  end.

(** A word of [split]: not empty and free of whitespace. *)
Definition is_word (w : str) : Prop :=
  w ≠ [] ∧ Forall (λ c, is_space c = false) w.

(** [str(n)] for a non-negative integer, digits by repeated division. *)
Fixpoint digits_fuel (fuel : nat) (n : N) (acc : str) : str :=
  match fuel with
  | O => acc
  | S fuel' =>
      let acc' := (48 + n mod 10)%N :: acc in
      if (n <? 10)%N then acc' else digits_fuel fuel' (n / 10)%N acc'
  end.

Definition str_of_int (z : Z) : str :=
  let n := Z.to_N z in digits_fuel (S (N.to_nat (N.log2 n))) n [].

End Py.

(** The two Unicode operations the code takes from the Python runtime:
    [unicodedata.normalize('NFKC', s)] and [s.lower()].  Their tables are not
    part of the repository; the model takes them as an interface. *)
Record Unicode := {
  normalize_NFKC : Py.str → Py.str;
  lower : Py.str → Py.str
}.

(** ** Configuration constants ([class Config]) *)

Module Config.

Definition MAX_EXCEL_ROWS : Z := 1048576.

(** [DEFAULT_HEADERS]: the Persian labels for "product name", "price" and
    "category", keyed by column index. *)
Definition DEFAULT_HEADERS : gmap Z Py.str :=
  <[0 := [1606; 1575; 1605; 32; 1605; 1581; 1589; 1608; 1604]%N]>
  (<[1 := [1602; 1740; 1605; 1578]%N]>
  (<[2 := [1583; 1587; 1578; 1607; 8204; 1576; 1606; 1583; 1740]%N]> ∅)).

End Config.

(** ** Data model *)

Record ProductRecord := {
  product_name : Py.str;
  price : Py.str;
  category : Py.str;
  row_number : Z
}.

(** [ProductRecord.is_valid] *)
Definition is_valid (r : ProductRecord) : bool :=
  Py.truthy (Py.strip (product_name r)).

(** [ProductRecord.normalize_name] *)
Definition normalize_name (U : Unicode) (r : ProductRecord) : Py.str :=
  if negb (Py.truthy (product_name r)) then []
  else
    let normalized := Py.strip (product_name r) in
    let normalized := normalize_NFKC U normalized in
    let normalized := lower U normalized in
    Py.join_space (Py.split normalized).

(** [ConversionStatistics]; the processing time, a float read from the clock,
    is left out. *)
Record ConversionStatistics := {
  total_rows_read : Z;
  empty_rows_skipped : Z;
  invalid_rows_skipped : Z;
  duplicate_rows_skipped : Z;
  unique_products_written : Z;
  columns_detected : Z
}.

(** ** Duplicate detector *)

Record DuplicateDetector := {
  _seen_products : gset Py.str;
  _duplicate_count : Z
}.

Definition new_detector : DuplicateDetector :=
  {| _seen_products := ∅; _duplicate_count := 0 |}.

(** [DuplicateDetector.is_duplicate]: the answer and the detector after the
    call. *)
Definition is_duplicate (U : Unicode) (d : DuplicateDetector)
    (product : ProductRecord) : bool * DuplicateDetector :=
  let normalized_name := normalize_name U product in
  if negb (Py.truthy normalized_name) then (false, d)
  else if bool_decide (normalized_name ∈ _seen_products d) then
    (true, {| _seen_products := _seen_products d;
              _duplicate_count := _duplicate_count d + 1 |})
  else
    (false, {| _seen_products := {[normalized_name]} ∪ _seen_products d;
               _duplicate_count := _duplicate_count d |}).

Definition get_duplicate_count (d : DuplicateDetector) : Z := _duplicate_count d.

(** ** CSV reader *)

(** What [csv.reader] delivers for the input path: the rows of the file, each
    a list of fields, or an error when the file cannot be opened or decoded. *)
Inductive CsvFile :=
| Unreadable
| Content (rows : list (list Py.str)).

Inductive exn :=
| ReadError
| RowLimitReached.

(** [row[i].strip() if len(row) >= i + 1 else ""] *)
Definition stripped_field (row : list Py.str) (i : nat) : Py.str :=
  match row !! i with
  | Some v => Py.strip v
  | None => []
  end.

(** One iteration of the loop of [read_records]. *)
Definition read_row (row_number : Z) (row : list Py.str) : ProductRecord :=
  match row with
  | [] => {| product_name := []; price := []; category := [];
             row_number := row_number |}
  | _ :: _ =>
      {| product_name := stripped_field row 0;
         price := stripped_field row 1;
         category := stripped_field row 2;
         row_number := row_number |}
  end.

Fixpoint read_rows (row_number : Z) (rows : list (list Py.str))
    : list ProductRecord :=
  match rows with
  | [] => []
  | row :: rest => read_row row_number row :: read_rows (row_number + 1) rest
  end.

(** [CSVReader.read_records]: the records the generator yields, in order. *)
Definition read_records (f : CsvFile) (skip_header : bool)
    : exn + list ProductRecord :=
  match f with
  | Unreadable => inl ReadError
  | Content rows =>
      let rows := if skip_header then tail rows else rows in
      let row_number := if skip_header then 2 else 1 in
      inr (read_rows row_number rows)
  end.

(** [CSVReader.detect_column_count] *)
Definition detect_column_count (f : CsvFile) : Z :=
  match f with
  | Unreadable => 2
  | Content rows =>
      match rows with
      | [] => 2
      | first_row :: _ =>
          match first_row with
          | [] => 2
          | _ :: _ =>
              let col_count :=
                Z.of_nat (length
                  (List.filter (λ col, Py.truthy (Py.strip col)) first_row)) in
              Z.max col_count 2
          end
      end
  end.

(** ** Excel writer *)

(** [worksheet.cell(row=row, column=column, value=value)], as the record of
    the value handed over: the cells of the worksheet are keyed by
    (row, column), both counted from 1.  What the library keeps of the value
    is [Openpyxl.cell] below. *)
Definition cell (ws : gmap (Z * Z) Py.str) (row column : Z) (value : Py.str)
    : gmap (Z * Z) Py.str :=
  <[(row, column) := value]> ws.

Record ExcelWriter := {
  column_count : Z;
  worksheet : gmap (Z * Z) Py.str;
  _current_row : Z
}.

(** [Config.DEFAULT_HEADERS.get(col_idx, f"<column> {col_idx + 1}")] *)
Definition header_text (col_idx : Z) : Py.str :=
  default ([1587; 1578; 1608; 1606; 32]%N ++ Py.str_of_int (col_idx + 1))
          (Config.DEFAULT_HEADERS !! col_idx).

(** [ExcelWriter._setup_headers], the cell values (fonts and widths are
    styling and are left out). *)
Definition _setup_headers (column_count : Z) (ws : gmap (Z * Z) Py.str)
    : gmap (Z * Z) Py.str :=
  foldl (λ ws col_idx, cell ws 1 (col_idx + 1) (header_text col_idx))
        ws (seqZ 0 column_count).

(** [ExcelWriter.__init__], over the handed values; with the exception of
    [get_column_letter] it is [Xl.new_writer] below. *)
Definition new_writer (column_count : Z) : ExcelWriter :=
  {| column_count := column_count;
     worksheet := _setup_headers column_count ∅;
     _current_row := 2 |}.

(** [ExcelWriter.write_record] *)
Definition write_record (w : ExcelWriter) (record : ProductRecord)
    : exn + ExcelWriter :=
  if Config.MAX_EXCEL_ROWS <? _current_row w then inl RowLimitReached
  else
    let ws := cell (worksheet w) (_current_row w) 1 (product_name record) in
    let ws := cell ws (_current_row w) 2 (price record) in
    let ws :=
      if (3 <=? column_count w) && Py.truthy (category record)
      then cell ws (_current_row w) 3 (category record)
      else ws in
    inr {| column_count := column_count w;
           worksheet := ws;
           _current_row := _current_row w + 1 |}.

Definition get_rows_written (w : ExcelWriter) : Z := _current_row w - 2.

(** ** Converter *)

(** What the loop of [_process_records] works on: the statistics and the
    detector of the converter, and the writer it was given. *)
Record Converter := {
  statistics : ConversionStatistics;
  duplicate_detector : DuplicateDetector;
  excel_writer : ExcelWriter
}.

Definition count_row (s : ConversionStatistics) : ConversionStatistics :=
  {| total_rows_read := total_rows_read s + 1;
     empty_rows_skipped := empty_rows_skipped s;
     invalid_rows_skipped := invalid_rows_skipped s;
     duplicate_rows_skipped := duplicate_rows_skipped s;
     unique_products_written := unique_products_written s;
     columns_detected := columns_detected s |}.

Definition count_empty (s : ConversionStatistics) : ConversionStatistics :=
  {| total_rows_read := total_rows_read s;
     empty_rows_skipped := empty_rows_skipped s + 1;
     invalid_rows_skipped := invalid_rows_skipped s;
     duplicate_rows_skipped := duplicate_rows_skipped s;
     unique_products_written := unique_products_written s;
     columns_detected := columns_detected s |}.

Definition count_invalid (s : ConversionStatistics) : ConversionStatistics :=
  {| total_rows_read := total_rows_read s;
     empty_rows_skipped := empty_rows_skipped s;
     invalid_rows_skipped := invalid_rows_skipped s + 1;
     duplicate_rows_skipped := duplicate_rows_skipped s;
     unique_products_written := unique_products_written s;
     columns_detected := columns_detected s |}.

(** The body of the loop of [_process_records] for one record. *)
Definition process_record (U : Unicode) (c : Converter) (record : ProductRecord)
    : exn + Converter :=
  let stats := count_row (statistics c) in
  if negb (Py.truthy (product_name record)) && negb (Py.truthy (price record))
  then
    inr {| statistics := count_empty stats;
           duplicate_detector := duplicate_detector c;
           excel_writer := excel_writer c |}
  else if negb (is_valid record) then
    inr {| statistics := count_invalid stats;
           duplicate_detector := duplicate_detector c;
           excel_writer := excel_writer c |}
  else
    let '(dup, det) := is_duplicate U (duplicate_detector c) record in
    if dup then
      inr {| statistics := stats; duplicate_detector := det;
             excel_writer := excel_writer c |}
    else
      match write_record (excel_writer c) record with
      | inl e => inl e
      | inr w =>
          inr {| statistics := stats; duplicate_detector := det;
                 excel_writer := w |}
      end.

(** [CSVToExcelConverter._process_records] over the records the reader
    yields. *)
Fixpoint process_records (U : Unicode) (c : Converter)
    (records : list ProductRecord) : exn + Converter :=
  match records with
  | [] => inr c
  | record :: rest =>
      match process_record U c record with
      | inl e => inl e
      | inr c' => process_records U c' rest
      end
  end.

(** The output path: nothing, or the worksheet of the last [save]. *)
Definition Disk := option (gmap (Z * Z) Py.str).

(** [ExcelWriter.save], when [workbook.save] succeeds; its failure is an
    outcome of [Xl.convert] below. *)
Definition save (w : ExcelWriter) (d : Disk) : Disk := Some (worksheet w).

(** [CSVToExcelConverter.convert] on a converter as [__init__] leaves it:
    the statistics it returns or the exception it raises, and the output
    path afterwards. *)
Definition convert (U : Unicode) (f : CsvFile) (d : Disk)
    : (exn + ConversionStatistics) * Disk :=
  let columns := detect_column_count f in
  let stats :=
    {| total_rows_read := 0; empty_rows_skipped := 0;
       invalid_rows_skipped := 0; duplicate_rows_skipped := 0;
       unique_products_written := 0; columns_detected := columns |} in
  let c := {| statistics := stats; duplicate_detector := new_detector;
              excel_writer := new_writer columns |} in
  match read_records f true with
  | inl e => (inl e, d)
  | inr records =>
      match process_records U c records with
      | inl e => (inl e, d)
      | inr c' =>
          let d' := save (excel_writer c') d in
          let s := statistics c' in
          (inr {| total_rows_read := total_rows_read s;
                  empty_rows_skipped := empty_rows_skipped s;
                  invalid_rows_skipped := invalid_rows_skipped s;
                  duplicate_rows_skipped :=
                    get_duplicate_count (duplicate_detector c');
                  unique_products_written :=
                    get_rows_written (excel_writer c');
                  columns_detected := columns_detected s |}, d')
      end
  end.

(** ** The decisions of the loop *)

(** The four ways the loop of [_process_records] disposes of a record. *)
Inductive Disposition := Blank | Invalid | Duplicate | Written.

#[global] Instance Disposition_eq_dec : EqDecision Disposition.
Proof. solve_decision. Defined.

(** The branch of the loop body a record takes, and the detector after it:
    the decisions of [process_record], without the counters and the writer. *)
Definition classify (U : Unicode) (d : DuplicateDetector) (record : ProductRecord)
    : Disposition * DuplicateDetector :=
  if negb (Py.truthy (product_name record)) && negb (Py.truthy (price record))
  then (Blank, d)
  else if negb (is_valid record) then (Invalid, d)
  else
    let '(dup, d') := is_duplicate U d record in
    (if dup then Duplicate else Written, d').

(** The branches taken by a sequence of records, from detector [d] on. *)
Fixpoint dispositions (U : Unicode) (d : DuplicateDetector)
    (records : list ProductRecord) : list Disposition :=
  match records with
  | [] => []
  | record :: rest =>
      let '(o, d') := classify U d record in o :: dispositions U d' rest
  end.

(** The detector after a sequence of records. *)
Fixpoint detector_after (U : Unicode) (d : DuplicateDetector)
    (records : list ProductRecord) : DuplicateDetector :=
  match records with
  | [] => d
  | record :: rest => detector_after U (classify U d record).2 rest
  end.

(** The records that take the last branch, in the order they are read. *)
Fixpoint accepted (U : Unicode) (d : DuplicateDetector)
    (records : list ProductRecord) : list ProductRecord :=
  match records with
  | [] => []
  | record :: rest =>
      let '(o, d') := classify U d record in
      if decide (o = Written) then record :: accepted U d' rest
      else accepted U d' rest
  end.

(** How often a disposition occurs. *)
Definition occurrences (o : Disposition) (os : list Disposition) : Z :=
  Z.of_nat (length (filter (λ x, x = o) os)).

(** ** A fragment of the Unicode tables

    On strings of Basic Latin code points (U+0000 to U+007F) and U+00DF
    (sharp s) NFKC changes nothing and [str.lower] maps A-Z to a-z, code
    point by code point; [str.casefold] does the same and turns U+00DF into
    "ss".  The fragment is what the model is evaluated with on such
    strings. *)
Module Latin.

Definition lower_char (c : Py.char) : Py.char :=
  if ((65 <=? c) && (c <=? 90))%N then (c + 32)%N else c.

Definition casefold_char (c : Py.char) : Py.str :=
  if (c =? 223)%N then [115; 115]%N else [lower_char c].

Definition unicode : Unicode :=
  {| normalize_NFKC := λ s, s; lower := map lower_char |}.

(** [s.casefold()] *)
Definition casefold (s : Py.str) : Py.str := s ≫= casefold_char.

End Latin.


(** ** What the pipeline needs from the Unicode tables

    Three facts about NFKC followed by lowercasing in CPython that the
    properties of the duplicate filter rest on. *)

(** Text that is not blank stays not blank. *)
Definition keeps_text (U : Unicode) : Prop :=
  ∀ s, Py.split s ≠ [] → Py.split (lower U (normalize_NFKC U s)) ≠ [].

(** Whitespace separates: the words of the result are the words of the
    results for the words of the text. *)
Definition word_by_word (U : Unicode) : Prop :=
  ∀ s, Py.split (lower U (normalize_NFKC U s)) =
       Py.split s ≫= (λ w, Py.split (lower U (normalize_NFKC U w))).

(** On Basic Latin text NFKC changes nothing and lowercasing is that of the
    Latin fragment. *)
Definition basic_latin (U : Unicode) : Prop :=
  ∀ s, Forall (λ c, (c < 128)%N) s →
       normalize_NFKC U s = s ∧ lower U s = map Latin.lower_char s.

(** ** The loop, taken apart *)

(** What one record adds to the counters the loop maintains. *)
Definition tally (s : ConversionStatistics) (o : Disposition)
    : ConversionStatistics :=
  match o with
  | Blank => count_empty (count_row s)
  | Invalid => count_invalid (count_row s)
  | Duplicate | Written => count_row s
  end.

(** [write_record] for a sequence of records, stopping at the first
    exception. *)
Fixpoint write_all (w : ExcelWriter) (records : list ProductRecord)
    : exn + ExcelWriter :=
  match records with
  | [] => inr w
  | record :: rest =>
      match write_record w record with
      | inl e => inl e
      | inr w' => write_all w' rest
      end
  end.

(** A cell is blank when it has nothing but whitespace. *)
Definition non_blank (cell : Py.str) : Prop :=
  Exists (λ c, Py.is_space c = false) cell.

#[global] Instance non_blank_dec cell : Decision (non_blank cell).
Proof. unfold non_blank. apply _. Defined.

(** ** Sample inputs *)

Module Sample.

(** A header row "name,price". *)
Definition header : list Py.str :=
  [[110; 97; 109; 101]%N; [112; 114; 105; 99; 101]%N].

(** Header, then ["Apple","10"], ["apple "," 10"], ["Banana",""]. *)
Definition scenario_A : list (list Py.str) :=
  [header;
   [[65; 112; 112; 108; 101]%N; [49; 48]%N];
   [[97; 112; 112; 108; 101; 32]%N; [32; 49; 48]%N];
   [[66; 97; 110; 97; 110; 97]%N; []]].

(** Header, then ["",""], ["","5"]. *)
Definition scenario_B : list (list Py.str) :=
  [header; [[]; []]; [[]; [53]%N]].

(** Header, then a line without fields. *)
Definition blank_line : list (list Py.str) := [header; []].

(** Header, then ["Apple"," 10"," fruit "] *)
Definition padded_price : list (list Py.str) :=
  [header ++ [[99; 97; 116]%N];
   [[65; 112; 112; 108; 101]%N; [32; 49; 48]%N;
    [32; 102; 114; 117; 105; 116; 32]%N]].

(** Header, then ["Pen","=1+1"]: a price that starts with an equals sign. *)
Definition formula_price : list (list Py.str) :=
  [header; [[80; 101; 110]%N; [61; 49; 43; 49]%N]].

(** Header, then a row whose name has the control character U+0001 between
    "a" and "b", with the price "1". *)
Definition control_name : list (list Py.str) :=
  [header; [[97; 1; 98]%N; [49]%N]].

(** Header, then ["Pen", p] with p the digit 1 repeated 32,768 times. *)
Definition long_price : list (list Py.str) :=
  [header; [[80; 101; 110]%N; replicate 32768 49%N]].

(** "Straße" and "STRASSE" *)
Definition strasse_mixed : Py.str := [83; 116; 114; 97; 223; 101]%N.
Definition strasse_upper : Py.str := [83; 84; 82; 65; 83; 83; 69]%N.

(** "Laptop  HP" with a leading space, and "laptop hp" *)
Definition laptop_spaced : Py.str :=
  [32; 76; 97; 112; 116; 111; 112; 32; 32; 72; 80]%N.
Definition laptop_plain : Py.str :=
  [108; 97; 112; 116; 111; 112; 32; 104; 112]%N.

(** A decimal digit. *)
Definition digit (c : Py.char) : Prop := (48 ≤ c ≤ 57)%N.

(** [n] as [width] decimal digits, the low digits when it has more. *)
Fixpoint code_digits (width : nat) (n : N) (acc : Py.str) : Py.str :=
  match width with
  | O => acc
  | S width' => code_digits width' (n / 10)%N ((48 + n mod 10)%N :: acc)
  end.

(** A product code as a name: [k] as seven decimal digits. *)
Definition code_name (k : nat) : Py.str := code_digits 7 (N.of_nat k) [].

(** A header and [n] rows named by the product codes 0000000, 0000001
    and so on, each with an empty price. *)
Definition many_rows (n : nat) : list (list Py.str) :=
  header :: ((λ k, [code_name k; []]) <$> seq 0 n).

Definition record (name price : Py.str) : ProductRecord :=
  {| product_name := name; price := price; category := []; row_number := 2 |}.

End Sample.

(** ** The written sheet *)

(** What [write_record] puts into column [column] of the row of a record,
    on a sheet of [columns] columns: the name, the price, the category when
    the sheet has a third column and the category is not empty, and nothing
    otherwise. *)
Definition written_cell (columns : Z) (r : ProductRecord) (column : Z)
    : option Py.str :=
  if decide (column = 1) then Some (product_name r)
  else if decide (column = 2) then Some (price r)
  else if decide (column = 3 ∧ 3 ≤ columns ∧ category r ≠ [])
       then Some (category r)
  else None.

(** The sheet read back as rows of text: rows 1 to [n_rows], columns 1 to
    [columns], an empty cell giving the empty string. *)
Definition exported_rows (columns n_rows : Z) (ws : gmap (Z * Z) Py.str)
    : list (list Py.str) :=
  (λ row, (λ column, default [] (ws !! (row, column))) <$> seqZ 1 columns)
    <$> seqZ 1 n_rows.

(** A record as the reader yields them: each field is its own trimmed
    form. *)
Definition trimmed (r : ProductRecord) : Prop :=
  Py.strip (product_name r) = product_name r ∧
  Py.strip (price r) = price r ∧
  Py.strip (category r) = category r.

(** ** Names that differ in inessential ways *)

(** The normalised words of a name: the words of the lowercased NFKC form of
    each of its words. *)
Definition word_key (U : Unicode) (name : Py.str) : list Py.str :=
  Py.split name ≫= (λ w, Py.split (lower U (normalize_NFKC U w))).

(** Two words that are equal, or made of Basic Latin code points and equal
    up to the case of their letters. *)
Definition same_word_up_to_case (w1 w2 : Py.str) : Prop :=
  w1 = w2 ∨
  (Forall (λ c, (c < 128)%N) w1 ∧ Forall (λ c, (c < 128)%N) w2 ∧
   map Latin.lower_char w1 = map Latin.lower_char w2).

(** Names that differ only in whitespace (they have the same words: the
    whitespace around them and the lengths of the whitespace runs between
    the words are free), only in the letter case of Basic Latin words, or
    only by Unicode compatibility variant (they have the same NFKC form),
    and combinations of these. *)
Inductive name_variant (U : Unicode) : Py.str → Py.str → Prop :=
| variant_whitespace a b :
    Py.split a = Py.split b → name_variant U a b
| variant_case a b :
    Forall2 same_word_up_to_case (Py.split a) (Py.split b) →
    name_variant U a b
| variant_compat a b :
    normalize_NFKC U a = normalize_NFKC U b → name_variant U a b
| variant_sym a b : name_variant U a b → name_variant U b a
| variant_trans a b c :
    name_variant U a b → name_variant U b c → name_variant U a c.

(** The canonical key in the words of the specification: trim, Unicode
    compatibility normalisation, case-fold, collapse whitespace runs to a
    single space. *)
Definition spec_canonical_key (nfkc casefold : Py.str → Py.str)
    (name : Py.str) : Py.str :=
  Py.join_space (Py.split (casefold (nfkc (Py.strip name)))).

(** ** The rest of the detector and of the path handling *)

(** [DuplicateDetector.get_unique_count] *)
Definition get_unique_count (d : DuplicateDetector) : Z :=
  Z.of_nat (size (_seen_products d)).

(** [DuplicateDetector.reset] *)
Definition reset (d : DuplicateDetector) : DuplicateDetector :=
  {| _seen_products := ∅; _duplicate_count := 0 |}.

(** [s.strip(chars)]: code points of [chars] are removed at both ends. *)
Fixpoint lstrip_chars (chars : list Py.char) (s : Py.str) : Py.str :=
  match s with
  | [] => []
  | c :: s' => if bool_decide (c ∈ chars) then lstrip_chars chars s' else s
  end.

Fixpoint rstrip_chars (chars : list Py.char) (s : Py.str) : Py.str :=
  match s with
  | [] => []
  | c :: s' =>
      let t := rstrip_chars chars s' in
      if bool_decide (c ∈ chars) && negb (Py.truthy t) then [] else c :: t
  end.

Definition strip_chars (chars : list Py.char) (s : Py.str) : Py.str :=
  lstrip_chars chars (rstrip_chars chars s).

(** [PathValidator.normalize_user_path], the text handed to [Path]: the
    input with whitespace stripped, then double quotes (U+0022), then single
    quotes (U+0027), then whitespace again. *)
Definition normalize_user_path (raw : Py.str) : Py.str :=
  Py.strip (strip_chars [39%N] (strip_chars [34%N] (Py.strip raw))).

(** A path as typed: not empty, with neither whitespace nor a quote at its
    ends. *)
Definition bare_path (p : Py.str) : Prop :=
  ∃ c c', head p = Some c ∧ last p = Some c' ∧
          Py.is_space c = false ∧ Py.is_space c' = false ∧
          (c ∉ [34; 39]%N) ∧ (c' ∉ [34; 39]%N).

(** Records with the same name, price and category (their row numbers may
    differ). *)
Definition same_fields (r1 r2 : ProductRecord) : Prop :=
  product_name r1 = product_name r2 ∧ price r1 = price r2 ∧
  category r1 = category r2.

(** A row whose name field has text: the row of a valid record. *)
Definition named_row (row : list Py.str) : Prop :=
  is_valid (read_row 0 row) = true.

#[global] Instance named_row_dec row : Decision (named_row row).
Proof. unfold named_row. apply _. Defined.

(** Stripping by a test on code points, the common shape of [strip()] and
    [strip(chars)]. *)
Fixpoint lstrip_by (f : Py.char → bool) (s : Py.str) : Py.str :=
  match s with
  | [] => []
  | c :: s' => if f c then lstrip_by f s' else s
  end.

Fixpoint rstrip_by (f : Py.char → bool) (s : Py.str) : Py.str :=
  match s with
  | [] => []
  | c :: s' =>
      let t := rstrip_by f s' in
      if f c && negb (Py.truthy t) then [] else c :: t
  end.

(** ** The sheet as openpyxl keeps it

    [cell], [new_writer] and [save] above take the worksheet as the record
    of the values handed to [worksheet.cell].  The library does more with a
    value than keep it: what it does is modelled here, after openpyxl 3.1
    ([openpyxl/cell/cell.py], [openpyxl/worksheet/worksheet.py],
    [openpyxl/utils/cell.py]), and the writer and the conversion are
    embedded a second time over it. *)

Module Openpyxl.

(** The exceptions of the library that the converter can meet. *)
Inductive error := IllegalCharacterError | ValueError.

(** The data types of a cell that a [str] value can get: ['s'], ['f']
    and ['e']. *)
Inductive data_type := TYPE_STRING | TYPE_FORMULA | TYPE_ERROR.

Record Cell := {
  data_type_of : data_type;
  value : Py.str
}.

(** [ILLEGAL_CHARACTERS_RE]: U+0000 to U+0008, U+000B, U+000C and U+000E to
    U+001F. *)
Definition illegal_character (c : Py.char) : bool :=
  ((c <=? 8) || (c =? 11) || (c =? 12) || (14 <=? c) && (c <=? 31))%N.

(** [ERROR_CODES]: #NULL!, #DIV/0!, #VALUE!, #REF!, #NAME?, #NUM!, #N/A. *)
Definition ERROR_CODES : list Py.str :=
  [[35; 78; 85; 76; 76; 33]; [35; 68; 73; 86; 47; 48; 33];
   [35; 86; 65; 76; 85; 69; 33]; [35; 82; 69; 70; 33];
   [35; 78; 65; 77; 69; 63]; [35; 78; 85; 77; 33]; [35; 78; 47; 65]]%N.

(** [Cell.check_string]: the value is cut to 32,767 characters, and an
    illegal character among those raises. *)
Definition check_string (value : Py.str) : error + Py.str :=
  let value := take 32767 value in
  if existsb illegal_character value then inl IllegalCharacterError
  else inr value.

(** The data type [Cell._bind_value] gives a checked string: a formula when
    it has more than one character and starts with an equals sign, an error
    when it is one of the error codes, a string otherwise. *)
Definition string_type (value : Py.str) : data_type :=
  if (1 <? length value)%nat && bool_decide (head value = Some 61%N)
  then TYPE_FORMULA
  else if bool_decide (value ∈ ERROR_CODES) then TYPE_ERROR
  else TYPE_STRING.

(** [Cell._bind_value] for a [str] *)
Definition _bind_value (value : Py.str) : error + Cell :=
  match check_string value with
  | inl e => inl e
  | inr value =>
      inr {| data_type_of := string_type value; value := value |}
  end.

(** [Worksheet.cell(row, column, value)] for a [str] value *)
Definition cell (ws : gmap (Z * Z) Cell) (row column : Z) (value : Py.str)
    : error + gmap (Z * Z) Cell :=
  if (row <? 1) || (column <? 1) then inl ValueError
  else
    match _bind_value value with
    | inl e => inl e
    | inr c => inr (<[(row, column) := c]> ws)
    end.

(** [get_column_letter(idx)] raises unless [1 <= idx <= 18278]. *)
Definition get_column_letter_raises (idx : Z) : bool :=
  negb ((1 <=? idx) && (idx <=? 18278)).

(** What the library keeps of a value it accepts. *)
Definition stored (value : Py.str) : Cell :=
  {| data_type_of := string_type (take 32767 value);
     value := take 32767 value |}.

(** A value the library accepts: no illegal character among its first
    32,767. *)
Definition storable (value : Py.str) : bool :=
  negb (existsb illegal_character (take 32767 value)).

End Openpyxl.

(** The writer and the conversion over the library's sheet. *)
Module Xl.

(** What can be raised: the exceptions of the converter and of the
    library. *)
Inductive failure :=
| Raised (e : exn)
| Library (e : Openpyxl.error).

Record ExcelWriter := {
  column_count : Z;
  worksheet : gmap (Z * Z) Openpyxl.Cell;
  _current_row : Z
}.

(** The first loop of [ExcelWriter._setup_headers]: the header cells. *)
Fixpoint header_cells (cols : list Z) (ws : gmap (Z * Z) Openpyxl.Cell)
    : Openpyxl.error + gmap (Z * Z) Openpyxl.Cell :=
  match cols with
  | [] => inr ws
  | col_idx :: rest =>
      match Openpyxl.cell ws 1 (col_idx + 1) (header_text col_idx) with
      | inl e => inl e
      | inr ws' => header_cells rest ws'
      end
  end.

(** The second loop: [get_column_letter(col_idx + 1)] for each column (the
    widths it sets are styling). *)
Definition column_letters (cols : list Z) : Openpyxl.error + unit :=
  if existsb (λ col_idx, Openpyxl.get_column_letter_raises (col_idx + 1)) cols
  then inl Openpyxl.ValueError else inr tt.

(** [ExcelWriter._setup_headers] *)
Definition _setup_headers (column_count : Z)
    (ws : gmap (Z * Z) Openpyxl.Cell)
    : Openpyxl.error + gmap (Z * Z) Openpyxl.Cell :=
  match header_cells (seqZ 0 column_count) ws with
  | inl e => inl e
  | inr ws' =>
      match column_letters (seqZ 0 column_count) with
      | inl e => inl e
      | inr _ => inr ws'
      end
  end.

(** [ExcelWriter.__init__] *)
Definition new_writer (column_count : Z) : Openpyxl.error + ExcelWriter :=
  match _setup_headers column_count ∅ with
  | inl e => inl e
  | inr ws => inr {| column_count := column_count; worksheet := ws;
                     _current_row := 2 |}
  end.

(** [ExcelWriter.write_record] *)
Definition write_record (w : ExcelWriter) (record : ProductRecord)
    : failure + ExcelWriter :=
  if Config.MAX_EXCEL_ROWS <? _current_row w then inl (Raised RowLimitReached)
  else
    match Openpyxl.cell (worksheet w) (_current_row w) 1
                        (product_name record) with
    | inl e => inl (Library e)
    | inr ws =>
        match Openpyxl.cell ws (_current_row w) 2 (price record) with
        | inl e => inl (Library e)
        | inr ws =>
            match (if (3 <=? column_count w) && Py.truthy (category record)
                   then Openpyxl.cell ws (_current_row w) 3 (category record)
                   else inr ws) with
            | inl e => inl (Library e)
            | inr ws =>
                inr {| column_count := column_count w;
                       worksheet := ws;
                       _current_row := _current_row w + 1 |}
            end
        end
    end.

Definition get_rows_written (w : ExcelWriter) : Z := _current_row w - 2.

(** [write_record] for a sequence of records, stopping at the first
    exception. *)
Fixpoint write_all (w : ExcelWriter) (records : list ProductRecord)
    : failure + ExcelWriter :=
  match records with
  | [] => inr w
  | record :: rest =>
      match write_record w record with
      | inl e => inl e
      | inr w' => write_all w' rest
      end
  end.

Record Converter := {
  statistics : ConversionStatistics;
  duplicate_detector : DuplicateDetector;
  excel_writer : ExcelWriter
}.

(** The body of the loop of [_process_records] for one record. *)
Definition process_record (U : Unicode) (c : Converter)
    (record : ProductRecord) : failure + Converter :=
  let stats := count_row (statistics c) in
  if negb (Py.truthy (product_name record)) && negb (Py.truthy (price record))
  then
    inr {| statistics := count_empty stats;
           duplicate_detector := duplicate_detector c;
           excel_writer := excel_writer c |}
  else if negb (is_valid record) then
    inr {| statistics := count_invalid stats;
           duplicate_detector := duplicate_detector c;
           excel_writer := excel_writer c |}
  else
    let '(dup, det) := is_duplicate U (duplicate_detector c) record in
    if dup then
      inr {| statistics := stats; duplicate_detector := det;
             excel_writer := excel_writer c |}
    else
      match write_record (excel_writer c) record with
      | inl e => inl e
      | inr w =>
          inr {| statistics := stats; duplicate_detector := det;
                 excel_writer := w |}
      end.

(** [CSVToExcelConverter._process_records] *)
Fixpoint process_records (U : Unicode) (c : Converter)
    (records : list ProductRecord) : failure + Converter :=
  match records with
  | [] => inr c
  | record :: rest =>
      match process_record U c record with
      | inl e => inl e
      | inr c' => process_records U c' rest
      end
  end.

(** How [convert] ends: it returns the statistics, the sheet being saved;
    it raises before [save] is reached, the output path being untouched; or
    [workbook.save] itself raises. *)
Inductive Outcome :=
| Returned (stats : ConversionStatistics)
           (saved : gmap (Z * Z) Openpyxl.Cell)
| RaisedBeforeSave (e : failure)
| RaisedInSave.

(** [CSVToExcelConverter.convert] on a converter as [__init__] leaves it;
    [can_save] says whether [workbook.save] succeeds on the output path. *)
Definition convert (U : Unicode) (can_save : bool) (f : CsvFile) : Outcome :=
  let columns := detect_column_count f in
  let stats :=
    {| total_rows_read := 0; empty_rows_skipped := 0;
       invalid_rows_skipped := 0; duplicate_rows_skipped := 0;
       unique_products_written := 0; columns_detected := columns |} in
  match new_writer columns with
  | inl e => RaisedBeforeSave (Library e)
  | inr writer =>
      match read_records f true with
      | inl e => RaisedBeforeSave (Raised e)
      | inr records =>
          match process_records U
                  {| statistics := stats; duplicate_detector := new_detector;
                     excel_writer := writer |} records with
          | inl e => RaisedBeforeSave e
          | inr c' =>
              if can_save then
                let s := statistics c' in
                Returned
                  {| total_rows_read := total_rows_read s;
                     empty_rows_skipped := empty_rows_skipped s;
                     invalid_rows_skipped := invalid_rows_skipped s;
                     duplicate_rows_skipped :=
                       get_duplicate_count (duplicate_detector c');
                     unique_products_written :=
                       get_rows_written (excel_writer c');
                     columns_detected := columns_detected s |}
                  (worksheet (excel_writer c'))
              else RaisedInSave
          end
      end
  end.

(** A record all of whose written values the library accepts, on a sheet of
    [columns] columns. *)
Definition storable_record (columns : Z) (r : ProductRecord) : bool :=
  Openpyxl.storable (product_name r) && Openpyxl.storable (price r)
  && (if (3 <=? columns) && Py.truthy (category r)
      then Openpyxl.storable (category r) else true).

End Xl.

(** The library's writer that corresponds to a writer over the values
    handed to [worksheet.cell]: each value as the library keeps it. *)
Definition library_writer (w : ExcelWriter) : Xl.ExcelWriter :=
  {| Xl.column_count := column_count w;
     Xl.worksheet := Openpyxl.stored <$> worksheet w;
     Xl._current_row := _current_row w |}.

(** The text of a cell of the library's sheet. *)
Definition cell_text (sheet : gmap (Z * Z) Openpyxl.Cell) (row column : Z)
    : option Py.str :=
  Openpyxl.value <$> sheet !! (row, column).
(** * Properties *)

(** ** Strings *)

Section strings.
Import Py.
Implicit Types (s t w : str) (ws : list str) (c : char).

Lemma truthy_true s : truthy s = true ↔ s ≠ [].
Proof. destruct s; simpl; split; intros; congruence. Qed.

Lemma truthy_false s : truthy s = false ↔ s = [].
Proof. destruct s; simpl; split; intros; congruence. Qed.

Lemma push_word_nil ws : push_word [] ws = ws.
Proof. reflexivity. Qed.

Lemma split_scan_rstrip s : split_scan (rstrip s) = split_scan s.
Proof.
  induction s as [|c s IH]; [reflexivity|]. cbn [rstrip split_scan].
  rewrite <- IH.
  destruct (is_space c) eqn:Hc; cbn [andb].
  - destruct (rstrip s) as [|x t]; cbn [truthy negb].
    + reflexivity.
    + cbn [split_scan]. rewrite Hc. reflexivity.
  - cbn [split_scan]. rewrite Hc. reflexivity.
Qed.

Lemma split_cons_space c s : is_space c = true → split (c :: s) = split s.
Proof.
  intros Hc. unfold split. cbn [split_scan].
  destruct (split_scan s) as [w ws]. rewrite Hc. reflexivity.
Qed.

Lemma split_lstrip s : split (lstrip s) = split s.
Proof.
  induction s as [|c s IH]; [reflexivity|]. cbn [lstrip].
  destruct (is_space c) eqn:Hc; [|reflexivity].
  rewrite split_cons_space by assumption. exact IH.
Qed.

Lemma split_strip s : split (strip s) = split s.
Proof.
  unfold strip. rewrite split_lstrip. unfold split.
  rewrite split_scan_rstrip. reflexivity.
Qed.

Lemma lstrip_head s :
  lstrip s = [] ∨ ∃ c t, lstrip s = c :: t ∧ is_space c = false.
Proof.
  induction s as [|c s IH]; [left; reflexivity|]. cbn [lstrip].
  destruct (is_space c) eqn:Hc; [exact IH|]. right. eauto.
Qed.

Lemma lstrip_idem s : lstrip (lstrip s) = lstrip s.
Proof.
  induction s as [|c s IH]; [reflexivity|]. cbn [lstrip].
  destruct (is_space c) eqn:Hc; [exact IH|]. cbn [lstrip]. rewrite Hc.
  reflexivity.
Qed.

Lemma rstrip_idem s : rstrip (rstrip s) = rstrip s.
Proof.
  induction s as [|c s IH]; [reflexivity|]. cbn [rstrip].
  destruct (is_space c && negb (truthy (rstrip s))) eqn:Hb; [reflexivity|].
  cbn [rstrip]. rewrite IH, Hb. reflexivity.
Qed.

Lemma rstrip_lstrip_fixed t : rstrip t = t → rstrip (lstrip t) = lstrip t.
Proof.
  induction t as [|c t IH]; [reflexivity|]. intros Ht. cbn [lstrip].
  destruct (is_space c) eqn:Hc; [|exact Ht]. apply IH.
  cbn [rstrip] in Ht.
  destruct (is_space c && negb (truthy (rstrip t))); congruence.
Qed.

Lemma strip_idem s : strip (strip s) = strip s.
Proof.
  unfold strip. rewrite (rstrip_lstrip_fixed (rstrip s)) by apply rstrip_idem.
  apply lstrip_idem.
Qed.

Lemma split_head_word c t : is_space c = false → split (c :: t) ≠ [].
Proof.
  intros Hc. unfold split. cbn [split_scan].
  destruct (split_scan t) as [w ws]. rewrite Hc. discriminate.
Qed.

Lemma strip_head c t : is_space c = false → truthy (strip (c :: t)) = true.
Proof.
  intros Hc. unfold strip. cbn [rstrip]. rewrite Hc. cbn [andb lstrip].
  rewrite Hc. reflexivity.
Qed.

Lemma strip_nil_split s : strip s = [] ↔ split s = [].
Proof.
  split; intros H.
  - rewrite <- split_strip, H. reflexivity.
  - destruct (lstrip_head (rstrip s)) as [E|(c & t & E & Hc)]; [exact E|].
    exfalso. rewrite <- split_strip in H. unfold strip in H. rewrite E in H.
    exact (split_head_word c t Hc H).
Qed.

Lemma truthy_strip_split s : truthy (strip s) = true ↔ split s ≠ [].
Proof. rewrite truthy_true, strip_nil_split. reflexivity. Qed.

Lemma split_scan_words s :
  Forall (λ c, is_space c = false) (split_scan s).1 ∧
  Forall is_word (split_scan s).2.
Proof.
  induction s as [|c s [IHw IHws]]; cbn [split_scan].
  - split; constructor.
  - destruct (split_scan s) as [w ws]. cbn [fst snd] in *.
    destruct (is_space c) eqn:Hc; cbn [fst snd].
    + split; [constructor|]. destruct w as [|x w]; [exact IHws|].
      cbn [push_word]. constructor; [|exact IHws]. split; [discriminate|].
      exact IHw.
    + split; [|exact IHws]. constructor; assumption.
Qed.

Lemma split_words s : Forall is_word (split s).
Proof.
  unfold split. pose proof (split_scan_words s) as [Hw Hws].
  destruct (split_scan s) as [w ws]. cbn [fst snd] in *.
  destruct w as [|x w]; [exact Hws|]. cbn [push_word].
  constructor; [|exact Hws]. split; [discriminate|exact Hw].
Qed.

Lemma split_scan_spacefree s :
  Forall (λ c, is_space c = false) s → split_scan s = (s, []).
Proof.
  induction 1 as [|c s Hc _ IH]; [reflexivity|]. cbn [split_scan].
  rewrite IH, Hc. reflexivity.
Qed.

Lemma split_word w : is_word w → split w = [w].
Proof.
  intros [Hne Hw]. unfold split. rewrite split_scan_spacefree by exact Hw.
  destruct w; [congruence|reflexivity].
Qed.

Lemma join_space_nil ws : Forall is_word ws → join_space ws = [] → ws = [].
Proof.
  intros Hws. destruct Hws as [|w ws [Hne _] _]; [reflexivity|].
  cbn [join_space]. destruct ws; [congruence|].
  destruct w; [congruence|discriminate].
Qed.

(** A code point map that respects whitespace commutes with [split]. *)
Lemma split_scan_map (f : char → char) s :
  (∀ c, is_space (f c) = is_space c) →
  split_scan (map f s) =
    (map f (split_scan s).1, map (map f) (split_scan s).2).
Proof.
  intros Hf. induction s as [|c s IH]; [reflexivity|].
  cbn [map split_scan]. rewrite IH, Hf.
  destruct (split_scan s) as [w ws]. cbn [fst snd].
  destruct (is_space c); [|reflexivity]. cbn [fst snd map].
  destruct w; reflexivity.
Qed.

Lemma split_map (f : char → char) s :
  (∀ c, is_space (f c) = is_space c) →
  split (map f s) = map (map f) (split s).
Proof.
  intros Hf. unfold split. rewrite split_scan_map by exact Hf.
  destruct (split_scan s) as [w ws]. cbn [fst snd].
  destruct w; reflexivity.
Qed.

End strings.

(** ** The loop of [_process_records] *)

Section loop.
Context (U : Unicode).
Implicit Types (c : Converter) (d : DuplicateDetector) (w : ExcelWriter)
  (r : ProductRecord) (records : list ProductRecord)
  (os : list Disposition) (s : ConversionStatistics).

Lemma process_record_classify c r :
  process_record U c r =
    match classify U (duplicate_detector c) r with
    | (Written, d') =>
        match write_record (excel_writer c) r with
        | inl e => inl e
        | inr w => inr {| statistics := tally (statistics c) Written;
                          duplicate_detector := d'; excel_writer := w |}
        end
    | (o, d') => inr {| statistics := tally (statistics c) o;
                        duplicate_detector := d';
                        excel_writer := excel_writer c |}
    end.
Proof.
  unfold process_record, classify.
  destruct (negb (Py.truthy (product_name r)) && negb (Py.truthy (price r)));
    [reflexivity|].
  destruct (negb (is_valid r)); [reflexivity|].
  destruct (is_duplicate U (duplicate_detector c) r) as [[] d'];
    reflexivity.
Qed.

Lemma process_records_spec records : ∀ c,
  process_records U c records =
    match write_all (excel_writer c)
                    (accepted U (duplicate_detector c) records) with
    | inl e => inl e
    | inr w =>
        inr {| statistics :=
                 foldl tally (statistics c)
                       (dispositions U (duplicate_detector c) records);
               duplicate_detector :=
                 detector_after U (duplicate_detector c) records;
               excel_writer := w |}
    end.
Proof.
  induction records as [|r records IH]; intros c.
  - destruct c; reflexivity.
  - cbn [process_records accepted dispositions detector_after foldl].
    rewrite process_record_classify.
    destruct (classify U (duplicate_detector c) r) as [o d'].
    cbn [snd].
    destruct (decide (o = Written)) as [->|Hne].
    + cbn [write_all].
      destruct (write_record (excel_writer c) r) as [e|w]; [reflexivity|].
      rewrite IH. reflexivity.
    + destruct o; try congruence; rewrite IH; reflexivity.
Qed.

Lemma dispositions_length records : ∀ d,
  length (dispositions U d records) = length records.
Proof.
  induction records as [|r records IH]; intros d; [reflexivity|].
  cbn [dispositions]. destruct (classify U d r) as [o d'].
  cbn [length]. rewrite IH. reflexivity.
Qed.

Lemma occurrences_cons o x os :
  occurrences o (x :: os) =
    (if decide (x = o) then 1 else 0) + occurrences o os.
Proof.
  unfold occurrences. rewrite filter_cons.
  destruct (decide (x = o)); cbn [length]; lia.
Qed.

Lemma occurrences_partition os :
  Z.of_nat (length os) =
    occurrences Blank os + occurrences Invalid os
    + occurrences Duplicate os + occurrences Written os.
Proof.
  induction os as [|x os IH]; [reflexivity|].
  rewrite !occurrences_cons. cbn [length].
  destruct x; repeat case_decide; try congruence; lia.
Qed.

Lemma accepted_length records : ∀ d,
  Z.of_nat (length (accepted U d records)) =
    occurrences Written (dispositions U d records).
Proof.
  induction records as [|r records IH]; intros d; [reflexivity|].
  cbn [accepted dispositions]. destruct (classify U d r) as [o d'].
  rewrite occurrences_cons.
  destruct (decide (o = Written)); cbn [length]; rewrite <- IH; lia.
Qed.

Lemma tally_total s os :
  total_rows_read (foldl tally s os) =
    total_rows_read s + Z.of_nat (length os).
Proof.
  revert s. induction os as [|o os IH]; intros s; cbn [foldl length].
  - lia.
  - rewrite IH. destruct o; cbn; lia.
Qed.

Lemma tally_empty s os :
  empty_rows_skipped (foldl tally s os) =
    empty_rows_skipped s + occurrences Blank os.
Proof.
  revert s. induction os as [|o os IH]; intros s; cbn [foldl].
  - unfold occurrences. cbn. lia.
  - rewrite IH, occurrences_cons.
    destruct o; case_decide; try congruence; cbn; lia.
Qed.

Lemma tally_invalid s os :
  invalid_rows_skipped (foldl tally s os) =
    invalid_rows_skipped s + occurrences Invalid os.
Proof.
  revert s. induction os as [|o os IH]; intros s; cbn [foldl].
  - unfold occurrences. cbn. lia.
  - rewrite IH, occurrences_cons.
    destruct o; case_decide; try congruence; cbn; lia.
Qed.

Lemma tally_columns s os :
  columns_detected (foldl tally s os) = columns_detected s.
Proof.
  revert s. induction os as [|o os IH]; intros s; cbn [foldl];
    [reflexivity|].
  rewrite IH. destruct o; reflexivity.
Qed.

Lemma classify_duplicate_count d r :
  _duplicate_count (classify U d r).2 =
    _duplicate_count d
    + (if decide ((classify U d r).1 = Duplicate) then 1 else 0).
Proof.
  unfold classify.
  destruct (negb (Py.truthy (product_name r)) && negb (Py.truthy (price r)));
    [cbn [fst snd]; case_decide; [discriminate|lia]|].
  destruct (negb (is_valid r));
    [cbn [fst snd]; case_decide; [discriminate|lia]|].
  unfold is_duplicate.
  destruct (negb (Py.truthy (normalize_name U r)));
    [cbn [fst snd]; case_decide; [discriminate|lia]|].
  case_bool_decide; cbn [fst snd _duplicate_count]; case_decide;
    try discriminate; try congruence; lia.
Qed.

Lemma detector_after_count records : ∀ d,
  _duplicate_count (detector_after U d records) =
    _duplicate_count d + occurrences Duplicate (dispositions U d records).
Proof.
  induction records as [|r records IH]; intros d.
  - unfold occurrences. cbn. lia.
  - cbn [detector_after dispositions]. rewrite IH.
    pose proof (classify_duplicate_count d r) as H.
    destruct (classify U d r) as [o d']. cbn [fst snd] in *.
    rewrite occurrences_cons, H. lia.
Qed.

End loop.

(** ** The writer *)

Section writer.
Implicit Types (w : ExcelWriter) (r : ProductRecord)
  (records : list ProductRecord).

Lemma write_record_inr w r w' :
  write_record w r = inr w' →
  _current_row w ≤ Config.MAX_EXCEL_ROWS ∧
  _current_row w' = _current_row w + 1 ∧
  column_count w' = column_count w.
Proof.
  unfold write_record. case_eq (Config.MAX_EXCEL_ROWS <? _current_row w);
    intros Hlim H; [discriminate|].
  apply Z.ltb_ge in Hlim. injection H as <-. cbn. lia.
Qed.

Lemma write_record_inl w r e :
  write_record w r = inl e →
  e = RowLimitReached ∧ Config.MAX_EXCEL_ROWS < _current_row w.
Proof.
  unfold write_record. case_eq (Config.MAX_EXCEL_ROWS <? _current_row w);
    intros Hlim H; [|discriminate].
  apply Z.ltb_lt in Hlim. injection H as <-. auto.
Qed.

Lemma write_all_inr records : ∀ w w',
  write_all w records = inr w' →
  _current_row w' = _current_row w + Z.of_nat (length records) ∧
  column_count w' = column_count w ∧
  (records ≠ [] → _current_row w' ≤ Config.MAX_EXCEL_ROWS + 1).
Proof.
  induction records as [|r records IH]; intros w w' H; cbn [write_all] in H.
  - injection H as <-. cbn [length]. split; [lia|]. split; [reflexivity|].
    congruence.
  - destruct (write_record w r) as [e|w1] eqn:Hw; [discriminate|].
    apply write_record_inr in Hw as (Hlim & Hrow & Hcol).
    apply IH in H as (Hrow' & Hcol' & Hlim').
    cbn [length]. split; [lia|]. split; [congruence|]. intros _.
    destruct records as [|r' records]; [cbn [length] in Hrow'; lia|].
    apply Hlim'. discriminate.
Qed.

Lemma write_all_fits records : ∀ w,
  _current_row w + Z.of_nat (length records) ≤ Config.MAX_EXCEL_ROWS + 1 →
  ∃ w', write_all w records = inr w'.
Proof.
  induction records as [|r records IH]; intros w H; cbn [write_all].
  - eauto.
  - cbn [length] in H.
    destruct (write_record w r) as [e|w1] eqn:Hw.
    + apply write_record_inl in Hw as [_ Hw]. lia.
    + apply IH. apply write_record_inr in Hw as (_ & Hrow & _). lia.
Qed.

Lemma write_all_overflow records : ∀ w,
  _current_row w ≤ Config.MAX_EXCEL_ROWS + 1 →
  Config.MAX_EXCEL_ROWS + 1 < _current_row w + Z.of_nat (length records) →
  write_all w records = inl RowLimitReached.
Proof.
  induction records as [|r records IH]; intros w Hw H; cbn [write_all].
  - cbn [length] in H. lia.
  - cbn [length] in H.
    destruct (write_record w r) as [e|w1] eqn:Hr.
    + apply write_record_inl in Hr as [-> _]. reflexivity.
    + apply write_record_inr in Hr as (Hlim & Hrow & _).
      apply IH; lia.
Qed.

End writer.

(** ** The conversion as a whole *)

Section conversion.
Context (U : Unicode).

(** [convert] on a readable file, in terms of the decisions of the loop. *)
Lemma convert_content rows d :
  convert U (Content rows) d =
    let records := read_rows 2 (tail rows) in
    let os := dispositions U new_detector records in
    let columns := detect_column_count (Content rows) in
    match write_all (new_writer columns) (accepted U new_detector records)
    with
    | inl e => (inl e, d)
    | inr w =>
        (inr {| total_rows_read := Z.of_nat (length records);
                empty_rows_skipped := occurrences Blank os;
                invalid_rows_skipped := occurrences Invalid os;
                duplicate_rows_skipped := occurrences Duplicate os;
                unique_products_written := occurrences Written os;
                columns_detected := columns |},
         Some (worksheet w))
    end.
Proof.
  unfold convert, read_records. rewrite process_records_spec.
  cbn [statistics duplicate_detector excel_writer].
  cbv zeta.
  destruct (write_all _ _) as [e|w] eqn:Hw; [reflexivity|].
  cbn [statistics duplicate_detector excel_writer].
  apply write_all_inr in Hw as (Hrow & _ & _).
  unfold save, get_rows_written, get_duplicate_count.
  rewrite tally_total, tally_empty, tally_invalid, tally_columns,
    detector_after_count, dispositions_length, <- accepted_length, Hrow.
  cbn [total_rows_read empty_rows_skipped invalid_rows_skipped
       columns_detected new_detector _duplicate_count new_writer
       _current_row].
  f_equal. f_equal. f_equal; lia.
Qed.

Lemma convert_unreadable d : convert U Unreadable d = (inl ReadError, d).
Proof. reflexivity. Qed.

End conversion.

(** ** Blank cells *)

Section blank.
Import Py.

Lemma push_word_is_nil w ws : push_word w ws = [] ↔ w = [] ∧ ws = [].
Proof. destruct w; cbn; split; [intros ->|intros [_ ->]|discriminate|intros [? _]]; auto; discriminate. Qed.

Lemma split_scan_blank s :
  split_scan s = ([], []) ↔ Forall (λ c, is_space c = true) s.
Proof.
  induction s as [|c s IH]; cbn [split_scan].
  - split; [constructor|reflexivity].
  - destruct (split_scan s) as [w ws]. destruct (is_space c) eqn:Hc.
    + split.
      * intros H. constructor; [exact Hc|]. apply IH.
        injection H as H. apply push_word_is_nil in H as [-> ->].
        reflexivity.
      * intros H. apply Forall_cons in H as [_ H]. apply IH in H.
        injection H as -> ->. reflexivity.
    + split; [discriminate|]. intros H. apply Forall_cons in H as [H _].
      congruence.
Qed.

Lemma split_nil_blank s :
  split s = [] ↔ Forall (λ c, is_space c = true) s.
Proof.
  rewrite <- split_scan_blank. unfold split.
  destruct (split_scan s) as [w ws]. rewrite push_word_is_nil.
  split; [intros [-> ->]; reflexivity|]. intros H. injection H as -> ->.
  auto.
Qed.

Lemma not_blank_exists s :
  ¬ Forall (λ c, is_space c = true) s ↔ Exists (λ c, is_space c = false) s.
Proof.
  induction s as [|c s IH].
  - split; [intros H; destruct H; constructor|intros H; inversion H].
  - rewrite Forall_cons, Exists_cons, <- IH.
    destruct (is_space c); split.
    + intros H. right. intros HF. apply H. auto.
    + intros [H|H] [_ HF]; [discriminate|auto].
    + intros _. left. reflexivity.
    + intros _ [H _]. discriminate.
Qed.

Lemma truthy_strip_non_blank s : truthy (strip s) = true ↔ non_blank s.
Proof.
  rewrite truthy_strip_split, split_nil_blank. apply not_blank_exists.
Qed.

End blank.

(** ** Decisions by position *)

Section positions.
Context (U : Unicode).
Implicit Types (d : DuplicateDetector) (r : ProductRecord)
  (records : list ProductRecord).

Lemma detector_after_app records1 records2 d :
  detector_after U d (records1 ++ records2) =
    detector_after U (detector_after U d records1) records2.
Proof.
  revert d. induction records1 as [|r records1 IH]; intros d;
    [reflexivity|].
  cbn [app detector_after]. apply IH.
Qed.

(** The disposition of the record at position [i] is the branch it takes
    with the detector as the records before it leave it. *)
Lemma dispositions_lookup records : ∀ d i,
  dispositions U d records !! i =
    (λ r, (classify U (detector_after U d (take i records)) r).1)
      <$> records !! i.
Proof.
  induction records as [|r records IH]; intros d i; [reflexivity|].
  cbn [dispositions].
  destruct (classify U d r) as [o d'] eqn:Hc.
  destruct i as [|i].
  - cbn. rewrite Hc. reflexivity.
  - cbn [lookup list_lookup take detector_after].
    change (dispositions U d' records !! i =
      (λ r0, (classify U (detector_after U (classify U d r).2
                            (take i records)) r0).1) <$> records !! i).
    rewrite Hc. apply IH.
Qed.

Lemma read_rows_lookup rows : ∀ n i,
  read_rows n rows !! i = (read_row (n + Z.of_nat i)) <$> rows !! i.
Proof.
  induction rows as [|row rows IH]; intros n i; [reflexivity|].
  destruct i as [|i]; cbn [read_rows].
  - cbn. rewrite Z.add_0_r. reflexivity.
  - change (read_rows (n + 1) rows !! i =
            read_row (n + Z.of_nat (S i)) <$> rows !! i).
    rewrite IH. replace (n + 1 + Z.of_nat i) with (n + Z.of_nat (S i)) by lia.
    reflexivity.
Qed.

Lemma read_rows_length rows : ∀ n, length (read_rows n rows) = length rows.
Proof.
  induction rows as [|row rows IH]; intros n; [reflexivity|].
  cbn [read_rows length]. rewrite IH. reflexivity.
Qed.

End positions.

(** ** The worksheet *)

Section worksheet.
Implicit Types (ws : gmap (Z * Z) Py.str) (w : ExcelWriter)
  (r : ProductRecord) (records : list ProductRecord).

Lemma cell_lookup ws row column value row' column' :
  cell ws row column value !! (row', column') =
    if decide (row' = row ∧ column' = column) then Some value
    else ws !! (row', column').
Proof.
  unfold cell. case_decide as H.
  - destruct H as [-> ->]. apply lookup_insert_eq.
  - apply lookup_insert_ne. intros [= -> ->]. auto.
Qed.

Lemma headers_lookup (cols : list Z) : ∀ ws row column,
  foldl (λ ws col_idx, cell ws 1 (col_idx + 1) (header_text col_idx))
        ws cols !! (row, column) =
    if decide (row = 1 ∧ column - 1 ∈ cols)
    then Some (header_text (column - 1))
    else ws !! (row, column).
Proof.
  induction cols as [|i cols IH]; intros ws row column; cbn [foldl].
  - rewrite decide_False; [reflexivity|]. intros [_ H]. inversion H.
  - rewrite IH, cell_lookup.
    destruct (decide (row = 1 ∧ column - 1 ∈ cols)) as [[-> Hin]|Hn].
    + rewrite decide_True; [reflexivity|]. split; [reflexivity|].
      apply elem_of_cons. auto.
    + destruct (decide (row = 1 ∧ column = i + 1)) as [[-> ->]|Hn'].
      * rewrite decide_True.
        -- f_equal. f_equal. lia.
        -- split; [reflexivity|]. apply elem_of_cons. left. lia.
      * rewrite decide_False; [reflexivity|]. intros [-> Hin].
        apply elem_of_cons in Hin as [Hin|Hin]; [|auto].
        apply Hn'. split; [reflexivity|lia].
Qed.

Lemma setup_headers_lookup columns ws row column :
  _setup_headers columns ws !! (row, column) =
    if decide (row = 1 ∧ 1 ≤ column ≤ columns)
    then Some (header_text (column - 1))
    else ws !! (row, column).
Proof.
  unfold _setup_headers. rewrite headers_lookup.
  destruct (decide (row = 1 ∧ column - 1 ∈ seqZ 0 columns)) as [[-> H]|H].
  - rewrite decide_True; [reflexivity|]. apply elem_of_seqZ in H. lia.
  - rewrite decide_False; [reflexivity|]. intros [-> H']. apply H.
    split; [reflexivity|]. apply elem_of_seqZ. lia.
Qed.

End worksheet.

Section written.
Implicit Types (ws : gmap (Z * Z) Py.str) (w : ExcelWriter)
  (r : ProductRecord) (records : list ProductRecord).

Lemma write_record_lookup w r w' row column :
  write_record w r = inr w' →
  worksheet w' !! (row, column) =
    if decide (row = _current_row w) then
      match written_cell (column_count w) r column with
      | Some v => Some v
      | None => worksheet w !! (row, column)
      end
    else worksheet w !! (row, column).
Proof.
  unfold write_record.
  destruct (Config.MAX_EXCEL_ROWS <? _current_row w); [discriminate|].
  intros H. injection H as <-. cbn [worksheet]. unfold written_cell.
  destruct ((3 <=? column_count w) && Py.truthy (category r)) eqn:Hcat.
  - apply andb_true_iff in Hcat as [Hc Ht].
    apply Z.leb_le in Hc. apply truthy_true in Ht.
    rewrite !cell_lookup.
    repeat case_decide; try reflexivity; try lia; exfalso; naive_solver lia.
  - rewrite !cell_lookup.
    assert (¬ (3 ≤ column_count w ∧ category r ≠ [])) as Hn.
    { intros [Hc Ht]. apply Z.leb_le in Hc. apply truthy_true in Ht.
      rewrite Hc, Ht in Hcat. discriminate. }
    repeat case_decide; try reflexivity; try lia; exfalso; naive_solver lia.
Qed.

Lemma write_all_lookup records : ∀ w w' row column,
  write_all w records = inr w' →
  worksheet w' !! (row, column) =
    match (if decide (_current_row w ≤ row)
           then records !! Z.to_nat (row - _current_row w) else None)
          ≫= (λ r, written_cell (column_count w) r column)
    with
    | Some v => Some v
    | None => worksheet w !! (row, column)
    end.
Proof.
  induction records as [|r records IH]; intros w w' row column H;
    cbn [write_all] in H.
  - injection H as <-. case_decide; reflexivity.
  - destruct (write_record w r) as [e|w1] eqn:Hw; [discriminate|].
    rewrite (IH _ _ _ _ H).
    rewrite (write_record_lookup _ _ _ _ _ Hw).
    apply write_record_inr in Hw as (_ & Hrow & Hcol). rewrite Hrow, Hcol.
    destruct (decide (row = _current_row w)) as [->|Hne].
    + rewrite decide_False by lia. rewrite decide_True by lia.
      rewrite Z.sub_diag. cbn. reflexivity.
    + destruct (decide (_current_row w + 1 ≤ row)) as [Hle|Hgt].
      * rewrite decide_True by lia.
        replace (Z.to_nat (row - _current_row w))
          with (S (Z.to_nat (row - (_current_row w + 1)))) by lia.
        reflexivity.
      * destruct (decide (_current_row w ≤ row)); [lia|]. reflexivity.
Qed.

(** The cells of a sheet written from a fresh writer. *)
Lemma sheet_lookup columns records w row column :
  write_all (new_writer columns) records = inr w →
  worksheet w !! (row, column) =
    if decide (row = 1) then
      if decide (1 ≤ column ≤ columns)
      then Some (header_text (column - 1)) else None
    else if decide (2 ≤ row) then
      records !! Z.to_nat (row - 2)
        ≫= (λ r, written_cell columns r column)
    else None.
Proof.
  intros H. rewrite (write_all_lookup _ _ _ _ _ H).
  cbn [new_writer _current_row column_count worksheet].
  rewrite setup_headers_lookup, lookup_empty.
  destruct (decide (row = 1)) as [->|Hrow].
  - rewrite decide_False by lia. cbn.
    repeat case_decide; try reflexivity; naive_solver lia.
  - rewrite (decide_False (P := row = 1 ∧ _)) by naive_solver.
    case_decide; [|reflexivity].
    destruct (_ ≫= _); reflexivity.
Qed.

End written.

(** ** The detector *)

Section detector.
Context (U : Unicode).
Implicit Types (d : DuplicateDetector) (r : ProductRecord)
  (records : list ProductRecord) (k : Py.str).

Lemma valid_name_truthy r :
  is_valid r = true → Py.truthy (product_name r) = true.
Proof.
  unfold is_valid. destruct (product_name r); [discriminate|reflexivity].
Qed.

(** The branch of a record that passes the two checks before the
    duplicate check. *)
Lemma classify_valid d r :
  is_valid r = true →
  classify U d r =
    if decide (normalize_name U r = []) then (Written, d)
    else if decide (normalize_name U r ∈ _seen_products d) then
      (Duplicate, {| _seen_products := _seen_products d;
                     _duplicate_count := _duplicate_count d + 1 |})
    else
      (Written,
       {| _seen_products := {[normalize_name U r]} ∪ _seen_products d;
          _duplicate_count := _duplicate_count d |}).
Proof.
  intros Hv. unfold classify. rewrite Hv, (valid_name_truthy r Hv).
  cbn [negb andb]. unfold is_duplicate.
  destruct (decide (normalize_name U r = [])) as [->|Hk]; [reflexivity|].
  apply truthy_true in Hk. rewrite Hk. cbn [negb].
  case_bool_decide; rewrite ?decide_True, ?decide_False by assumption;
    reflexivity.
Qed.

Lemma classify_invalid d r :
  is_valid r = false →
  (classify U d r).2 = d ∧
  ((classify U d r).1 = Blank ∨ (classify U d r).1 = Invalid).
Proof.
  intros Hv. unfold classify. rewrite Hv.
  destruct (negb (Py.truthy (product_name r)) && negb (Py.truthy (price r)));
    cbn; auto.
Qed.

Lemma classify_seen d r k :
  k ∈ _seen_products (classify U d r).2 ↔
  k ∈ _seen_products d ∨
  (is_valid r = true ∧ normalize_name U r = k ∧ k ≠ []).
Proof.
  destruct (is_valid r) eqn:Hv.
  - rewrite classify_valid by exact Hv.
    repeat case_decide; cbn [snd _seen_products].
    + split; [auto|]. intros [H'|(_ & <- & H')]; [exact H'|congruence].
    + split; [auto|]. intros [H'|(_ & <- & _)]; assumption.
    + rewrite elem_of_union, elem_of_singleton.
      split; [intros [->|H']; auto|].
      intros [H'|(_ & <- & _)]; auto.
  - destruct (classify_invalid d r Hv) as [-> _].
    split; [auto|]. intros [H|(H & _)]; [exact H|discriminate].
Qed.

Lemma detector_after_seen records : ∀ d k,
  k ∈ _seen_products (detector_after U d records) ↔
  k ∈ _seen_products d ∨
  ∃ i r, records !! i = Some r ∧ is_valid r = true ∧
         normalize_name U r = k ∧ k ≠ [].
Proof.
  induction records as [|r records IH]; intros d k; cbn [detector_after].
  - split; [auto|]. intros [H|(i & r & H & _)]; [exact H|].
    destruct i; discriminate.
  - rewrite IH, classify_seen. split.
    + intros [[H|H]|(i & r' & H)]; [auto| |].
      * right. exists 0%nat, r. auto.
      * right. exists (S i), r'. exact H.
    + intros [H|(i & r' & Hi & H)]; [auto|].
      destruct i as [|i].
      * injection Hi as <-. auto.
      * right. exists i, r'. auto.
Qed.

(** Where lowercased NFKC keeps text, a valid name has a key. *)
Lemma valid_key_nonempty r :
  keeps_text U → is_valid r = true → normalize_name U r ≠ [].
Proof.
  intros HU Hv. unfold normalize_name.
  rewrite (valid_name_truthy r Hv). cbn [negb].
  intros H. apply join_space_nil in H; [|apply split_words].
  revert H. apply HU. rewrite split_strip.
  apply truthy_strip_split. exact Hv.
Qed.

Lemma accepted_filter records : ∀ d,
  accepted U d records =
    (filter (λ p, p.2 = Written) (zip records (dispositions U d records))).*1.
Proof.
  induction records as [|r records IH]; intros d; [reflexivity|].
  cbn [accepted dispositions]. destruct (classify U d r) as [o d'].
  cbn [zip zip_with]. rewrite filter_cons. cbn [snd].
  destruct (decide (o = Written)); cbn [fmap list_fmap fst]; rewrite IH;
    reflexivity.
Qed.

Lemma accepted_sublist records : ∀ d, sublist (accepted U d records) records.
Proof.
  induction records as [|r records IH]; intros d; [constructor|].
  cbn [accepted]. destruct (classify U d r) as [o d'].
  destruct (decide (o = Written)); [apply sublist_skip|apply sublist_cons];
    apply IH.
Qed.

Lemma accepted_valid records : ∀ d,
  Forall (λ r, is_valid r = true) (accepted U d records).
Proof.
  induction records as [|r records IH]; intros d; [constructor|].
  cbn [accepted]. destruct (classify U d r) as [o d'] eqn:Hc.
  destruct (decide (o = Written)) as [->|]; [|apply IH].
  constructor; [|apply IH].
  destruct (is_valid r) eqn:Hv; [reflexivity|].
  destruct (classify_invalid d r Hv) as [_ H]. rewrite Hc in H.
  cbn in H. destruct H; discriminate.
Qed.

End detector.

Section conversion_results.
Context (U : Unicode).

Lemma convert_inr rows d stats d' :
  convert U (Content rows) d = (inr stats, d') →
  let records := read_rows 2 (tail rows) in
  let os := dispositions U new_detector records in
  ∃ w,
    write_all (new_writer (detect_column_count (Content rows)))
              (accepted U new_detector records) = inr w ∧
    d' = Some (worksheet w) ∧
    stats = {| total_rows_read := Z.of_nat (length records);
               empty_rows_skipped := occurrences Blank os;
               invalid_rows_skipped := occurrences Invalid os;
               duplicate_rows_skipped := occurrences Duplicate os;
               unique_products_written :=
                 Z.of_nat (length (accepted U new_detector records));
               columns_detected := detect_column_count (Content rows) |}.
Proof.
  rewrite convert_content. cbv zeta.
  destruct (write_all _ _) as [e|w]; [discriminate|].
  intros H. injection H as <- <-. exists w.
  rewrite accepted_length. auto.
Qed.

Lemma convert_inl rows d e d' :
  convert U (Content rows) d = (inl e, d') →
  d' = d ∧
  write_all (new_writer (detect_column_count (Content rows)))
            (accepted U new_detector (read_rows 2 (tail rows))) = inl e.
Proof.
  rewrite convert_content. cbv zeta.
  destruct (write_all _ _) as [e'|w]; [|discriminate].
  intros H. injection H as <- <-. auto.
Qed.

End conversion_results.

(** ** The Latin fragment *)

Section latin.
Import Py.

Lemma is_space_spec c :
  is_space c = true ↔
  (9 ≤ c ≤ 13 ∨ 28 ≤ c ≤ 32 ∨ c = 133 ∨ c = 160 ∨ c = 5760
   ∨ 8192 ≤ c ≤ 8202 ∨ c = 8232 ∨ c = 8233 ∨ c = 8239 ∨ c = 8287
   ∨ c = 12288)%N.
Proof.
  unfold is_space.
  rewrite !orb_true_iff, !andb_true_iff, !N.leb_le, !N.eqb_eq. tauto.
Qed.

Lemma is_space_false c :
  is_space c = false ↔
  ¬ (9 ≤ c ≤ 13 ∨ 28 ≤ c ≤ 32 ∨ c = 133 ∨ c = 160 ∨ c = 5760
     ∨ 8192 ≤ c ≤ 8202 ∨ c = 8232 ∨ c = 8233 ∨ c = 8239 ∨ c = 8287
     ∨ c = 12288)%N.
Proof. rewrite <- is_space_spec. destruct (is_space c); naive_solver. Qed.

Lemma lower_char_space c : is_space (Latin.lower_char c) = is_space c.
Proof.
  unfold Latin.lower_char.
  destruct ((65 <=? c) && (c <=? 90))%N eqn:Hc; [|reflexivity].
  apply andb_true_iff in Hc as [H1 H2].
  apply N.leb_le in H1, H2.
  transitivity false; [|symmetry]; apply is_space_false; lia.
Qed.

Lemma map_word (f : char → char) w :
  (∀ c, is_space (f c) = is_space c) → is_word w → is_word (map f w).
Proof.
  intros Hf [Hne Hw]. split; [destruct w; [congruence|discriminate]|].
  apply Forall_fmap. eapply Forall_impl; [exact Hw|].
  intros c Hc. cbn. rewrite Hf. exact Hc.
Qed.

Lemma latin_split s :
  split (lower Latin.unicode (normalize_NFKC Latin.unicode s)) =
    map (map Latin.lower_char) (split s).
Proof. apply split_map, lower_char_space. Qed.

Lemma latin_keeps_text : keeps_text Latin.unicode.
Proof.
  intros s Hs. rewrite latin_split. destruct (split s); [congruence|].
  discriminate.
Qed.

Lemma latin_word_by_word : word_by_word Latin.unicode.
Proof.
  intros s. rewrite latin_split.
  pose proof (split_words s) as Hws.
  induction Hws as [|w ws Hw _ IH]; [reflexivity|].
  cbn [map mbind list_bind app]. rewrite latin_split, <- IH.
  rewrite (split_word w Hw). reflexivity.
Qed.

Lemma latin_basic_latin : basic_latin Latin.unicode.
Proof. intros s _. split; reflexivity. Qed.

End latin.

Section reader.

Lemma read_row_fields n row :
  product_name (read_row n row) = stripped_field row 0 ∧
  price (read_row n row) = stripped_field row 1 ∧
  category (read_row n row) = stripped_field row 2.
Proof. destruct row; repeat split; reflexivity. Qed.

Lemma write_all_app records1 records2 w :
  write_all w (records1 ++ records2) =
    match write_all w records1 with
    | inl e => inl e
    | inr w' => write_all w' records2
    end.
Proof.
  revert w. induction records1 as [|r records1 IH]; intros w;
    [reflexivity|].
  cbn [app write_all]. destruct (write_record w r); [reflexivity|apply IH].
Qed.

End reader.

(** ** Running the filter over its own output *)

Section rerun.
Context (U : Unicode).
Implicit Types (d : DuplicateDetector) (r : ProductRecord)
  (records : list ProductRecord).

(** The decisions depend on the name and the price of a record alone. *)
Lemma classify_fields d r1 r2 :
  product_name r1 = product_name r2 → price r1 = price r2 →
  classify U d r1 = classify U d r2.
Proof.
  intros Hn Hp.
  unfold classify, is_duplicate, is_valid, normalize_name.
  rewrite Hn, Hp. reflexivity.
Qed.

(** They depend on the detector through its seen-set alone. *)
Lemma classify_seen_ext d1 d2 r :
  _seen_products d1 = _seen_products d2 →
  (classify U d1 r).1 = (classify U d2 r).1 ∧
  _seen_products (classify U d1 r).2 = _seen_products (classify U d2 r).2.
Proof.
  intros Hs. unfold classify.
  destruct (negb (Py.truthy (product_name r)) && negb (Py.truthy (price r)));
    [auto|].
  destruct (negb (is_valid r)); [auto|].
  unfold is_duplicate.
  destruct (negb (Py.truthy (normalize_name U r))); [auto|].
  rewrite Hs. case_bool_decide; cbn [fst snd _seen_products]; rewrite ?Hs;
    auto.
Qed.

Lemma classify_rejected_seen d r :
  (classify U d r).1 ≠ Written →
  _seen_products (classify U d r).2 = _seen_products d.
Proof.
  unfold classify.
  destruct (negb (Py.truthy (product_name r)) && negb (Py.truthy (price r)));
    [reflexivity|].
  destruct (negb (is_valid r)); [reflexivity|].
  unfold is_duplicate.
  destruct (negb (Py.truthy (normalize_name U r)));
    [cbn; congruence|].
  case_bool_decide; cbn; congruence.
Qed.

Lemma dispositions_seen_ext records : ∀ d1 d2,
  _seen_products d1 = _seen_products d2 →
  dispositions U d1 records = dispositions U d2 records.
Proof.
  induction records as [|r records IH]; intros d1 d2 Hs; [reflexivity|].
  cbn [dispositions].
  destruct (classify_seen_ext d1 d2 r Hs) as [Ho Hs'].
  destruct (classify U d1 r) as [o1 d1'], (classify U d2 r) as [o2 d2'].
  cbn [fst snd] in *. subst o2. f_equal. apply IH. exact Hs'.
Qed.

Lemma dispositions_fields records1 : ∀ records2 d,
  Forall2 (λ r1 r2, product_name r1 = product_name r2 ∧ price r1 = price r2)
          records1 records2 →
  dispositions U d records1 = dispositions U d records2.
Proof.
  induction records1 as [|r1 records1 IH]; intros records2 d H;
    inversion H as [|? r2 ? records2' [Hn Hp] Hrest]; subst;
    [reflexivity|].
  cbn [dispositions]. rewrite (classify_fields d r1 r2 Hn Hp).
  destruct (classify U d r2) as [o d']. f_equal. apply IH. exact Hrest.
Qed.

(** Every record the filter admitted is admitted again when the filter is
    run over the admitted records. *)
Lemma dispositions_accepted records : ∀ d,
  dispositions U d (accepted U d records) =
    replicate (length (accepted U d records)) Written.
Proof.
  induction records as [|r records IH]; intros d; [reflexivity|].
  cbn [accepted]. destruct (classify U d r) as [o d'] eqn:Hc.
  destruct (decide (o = Written)) as [->|Hne].
  - cbn [dispositions length replicate]. rewrite Hc. f_equal. apply IH.
  - rewrite (dispositions_seen_ext _ d d'); [apply IH|].
    pose proof (classify_rejected_seen d r) as H. rewrite Hc in H.
    symmetry. apply H. exact Hne.
Qed.

Lemma accepted_all records : ∀ d,
  dispositions U d records = replicate (length records) Written →
  accepted U d records = records.
Proof.
  induction records as [|r records IH]; intros d H; [reflexivity|].
  cbn [accepted dispositions length replicate] in *.
  destruct (classify U d r) as [o d']. injection H as -> H.
  rewrite decide_True by reflexivity. f_equal. apply IH. exact H.
Qed.

Lemma occurrences_replicate n o :
  occurrences o (replicate n Written) =
    if decide (o = Written) then Z.of_nat n else 0.
Proof.
  induction n as [|n IH]; cbn [replicate].
  - unfold occurrences. cbn. case_decide; reflexivity.
  - rewrite occurrences_cons, IH.
    destruct (decide (Written = o)) as [<-|Hne].
    + rewrite !decide_True by reflexivity. lia.
    + rewrite !decide_False by congruence. lia.
Qed.

(** The keys of the admitted records are pairwise distinct, and none was
    in the seen-set when the run began. *)
Lemma accepted_keys records : keeps_text U → ∀ d,
  NoDup (normalize_name U <$> accepted U d records) ∧
  ∀ k, k ∈ normalize_name U <$> accepted U d records →
       k ∉ _seen_products d.
Proof.
  intros HU. induction records as [|r records IH]; intros d.
  - split; [constructor|]. intros k Hk. inversion Hk.
  - cbn [accepted]. destruct (classify U d r) as [o d'] eqn:Hc.
    destruct (IH d') as [Hnd Hfresh].
    destruct (decide (o = Written)) as [->|Hne].
    + assert (is_valid r = true) as Hv.
      { destruct (is_valid r) eqn:Hv; [reflexivity|].
        destruct (classify_invalid U d r Hv) as [_ H]. rewrite Hc in H.
        cbn in H. destruct H; discriminate. }
      pose proof (valid_key_nonempty U r HU Hv) as Hk.
      rewrite classify_valid in Hc by exact Hv.
      rewrite decide_False in Hc by exact Hk.
      destruct (decide (normalize_name U r ∈ _seen_products d))
        as [Hin|Hnin]; [discriminate|].
      injection Hc as <-. cbn [_seen_products] in Hfresh.
      cbn [fmap list_fmap]. split.
      * constructor; [|exact Hnd]. intros Hin. apply Hfresh in Hin.
        apply Hin. apply elem_of_union. left. apply elem_of_singleton.
        reflexivity.
      * intros k Hin. apply elem_of_cons in Hin as [->|Hin];
          [exact Hnin|].
        intros Hd. apply (Hfresh k Hin). apply elem_of_union. auto.
    + split; [exact Hnd|]. intros k Hin.
      pose proof (classify_rejected_seen d r) as H. rewrite Hc in H.
      rewrite <- (H Hne). apply Hfresh. exact Hin.
Qed.

Lemma write_record_fields w r1 r2 :
  product_name r1 = product_name r2 → price r1 = price r2 →
  (3 ≤ column_count w → category r1 = category r2) →
  write_record w r1 = write_record w r2.
Proof.
  intros Hn Hp Hc. unfold write_record. rewrite Hn, Hp.
  destruct (3 <=? column_count w) eqn:H3.
  - rewrite Hc by (apply Z.leb_le; exact H3). reflexivity.
  - reflexivity.
Qed.

Lemma write_all_fields records1 : ∀ records2 w,
  Forall2 (λ r1 r2, product_name r1 = product_name r2 ∧ price r1 = price r2
                    ∧ (3 ≤ column_count w → category r1 = category r2))
          records1 records2 →
  write_all w records1 = write_all w records2.
Proof.
  induction records1 as [|r1 records1 IH]; intros records2 w H;
    inversion H as [|? r2 ? records2' (Hn & Hp & Hc) Hrest]; subst;
    [reflexivity|].
  cbn [write_all]. rewrite (write_record_fields w r1 r2 Hn Hp Hc).
  destruct (write_record w r2) as [e|w'] eqn:Hw; [reflexivity|].
  apply IH. apply write_record_inr in Hw as (_ & _ & Hcol).
  rewrite Hcol. exact Hrest.
Qed.

End rerun.

(** ** The sheet read back *)

Section export.

Lemma header_text_truthy i : Py.truthy (Py.strip (header_text i)) = true.
Proof.
  unfold header_text.
  destruct (Config.DEFAULT_HEADERS !! i) as [v|] eqn:H.
  - unfold Config.DEFAULT_HEADERS in H.
    rewrite !lookup_insert, lookup_empty in H.
    repeat case_decide; try discriminate; injection H as <-;
      apply strip_head; reflexivity.
  - apply strip_head. reflexivity.
Qed.

Lemma detect_column_count_cons first_row rest :
  detect_column_count (Content (first_row :: rest)) =
    Z.max (Z.of_nat (length
      (List.filter (λ col, Py.truthy (Py.strip col)) first_row))) 2.
Proof. destruct first_row; reflexivity. Qed.

Lemma detect_column_count_min f : 2 ≤ detect_column_count f.
Proof.
  destruct f as [|[|first_row rest]]; [cbn; lia..|].
  rewrite detect_column_count_cons. lia.
Qed.

Lemma header_row_count (cols : list Z) :
  length (List.filter (λ col, Py.truthy (Py.strip col))
                      ((λ column, header_text (column - 1)) <$> cols))
  = length cols.
Proof.
  induction cols as [|c cols IH]; [reflexivity|].
  cbn [fmap list_fmap List.filter]. rewrite header_text_truthy.
  cbn [length]. f_equal. exact IH.
Qed.

Lemma read_row_trimmed n row : trimmed (read_row n row).
Proof.
  unfold trimmed. destruct (read_row_fields n row) as (-> & -> & ->).
  unfold stripped_field.
  repeat split; destruct (row !! _); try reflexivity; apply strip_idem.
Qed.

Lemma read_rows_trimmed rows : ∀ n, Forall trimmed (read_rows n rows).
Proof.
  induction rows as [|row rows IH]; intros n; constructor;
    [apply read_row_trimmed|apply IH].
Qed.

Context (columns : Z) (kept : list ProductRecord) (w : ExcelWriter).
Hypothesis Hcolumns : 2 ≤ columns.
Hypothesis Hkept : Forall trimmed kept.
Hypothesis Hw : write_all (new_writer columns) kept = inr w.

Let n_rows : Z := 1 + Z.of_nat (length kept).
Let sheet := exported_rows columns n_rows (worksheet w).

Lemma exported_head :
  sheet !! 0%nat = Some ((λ column, header_text (column - 1)) <$> seqZ 1 columns).
Proof.
  unfold sheet, exported_rows, n_rows.
  rewrite list_lookup_fmap, lookup_seqZ_lt by lia.
  cbn [fmap option_fmap option_map]. f_equal.
  apply Forall_fmap_ext, Forall_forall. intros column Hin.
  apply elem_of_seqZ in Hin.
  rewrite (sheet_lookup _ _ _ _ _ Hw).
  rewrite decide_True by lia. rewrite decide_True by lia. reflexivity.
Qed.

Lemma exported_columns : detect_column_count (Content sheet) = columns.
Proof.
  pose proof exported_head as H.
  destruct sheet as [|first_row rest]; [discriminate|].
  injection H as ->. rewrite detect_column_count_cons, header_row_count.
  rewrite length_seqZ. lia.
Qed.

Lemma exported_tail_length : length (tail sheet) = length kept.
Proof.
  unfold sheet, exported_rows, n_rows.
  rewrite (seqZ_cons 1 (1 + Z.of_nat (length kept))) by lia.
  cbn [fmap list_fmap tail]. rewrite length_fmap, length_seqZ. lia.
Qed.

Lemma exported_cell (i : nat) r column :
  kept !! i = Some r →
  worksheet w !! (2 + Z.of_nat i, column) = written_cell columns r column.
Proof.
  intros Hi. rewrite (sheet_lookup _ _ _ _ _ Hw).
  rewrite decide_False by lia. rewrite decide_True by lia.
  replace (Z.to_nat (2 + Z.of_nat i - 2)) with i by lia.
  rewrite Hi. reflexivity.
Qed.

Lemma exported_row (i : nat) r :
  kept !! i = Some r →
  tail sheet !! i =
    Some (product_name r :: price r ::
          ((λ column, default [] (written_cell columns r column))
             <$> seqZ 3 (columns - 2))).
Proof.
  intros Hi. pose proof (lookup_lt_Some _ _ _ Hi) as Hlt.
  unfold sheet, exported_rows, n_rows.
  rewrite lookup_tail, list_lookup_fmap, lookup_seqZ_lt by lia.
  cbn [fmap option_fmap option_map]. f_equal.
  replace (1 + Z.of_nat (S i)) with (2 + Z.of_nat i) by lia.
  rewrite (seqZ_cons 1 columns) by lia.
  rewrite (seqZ_cons (Z.succ 1) (Z.pred columns)) by lia.
  replace (Z.succ (Z.succ 1)) with 3 by lia.
  replace (Z.pred (Z.pred columns)) with (columns - 2) by lia.
  cbn [fmap list_fmap]. rewrite !(exported_cell i r) by exact Hi.
  f_equal. f_equal.
  apply Forall_fmap_ext, Forall_forall. intros column _.
  rewrite (exported_cell i r) by exact Hi. reflexivity.
Qed.

(** The records read back from the sheet have the names and prices of the
    records written, and their categories where the sheet has a third
    column. *)
Lemma exported_records :
  Forall2 (λ r1 r2, product_name r1 = product_name r2 ∧ price r1 = price r2
                    ∧ (3 ≤ columns → category r1 = category r2))
          (read_rows 2 (tail sheet)) kept.
Proof.
  apply Forall2_same_length_lookup. split.
  - rewrite read_rows_length. apply exported_tail_length.
  - intros i r1 r2 H1 H2. rewrite read_rows_lookup in H1.
    rewrite (exported_row i r2 H2) in H1. injection H1 as <-.
    pose proof (proj1 (Forall_lookup _ _) Hkept i r2 H2) as (Hn & Hp & Hc).
    cbn [read_row product_name price category].
    unfold stripped_field. cbn [lookup list_lookup].
    split; [exact Hn|]. split; [exact Hp|]. intros H3.
    rewrite (seqZ_cons 3 (columns - 2)) by lia.
    cbn [fmap list_fmap lookup list_lookup]. unfold written_cell.
    rewrite decide_False by lia. rewrite decide_False by lia.
    destruct (decide (category r2 = [])) as [He|He].
    + rewrite decide_False by naive_solver. rewrite He. reflexivity.
    + rewrite decide_True by auto. exact Hc.
Qed.

End export.

(** ** Name variants *)

Section variants.
Context (U : Unicode).
Hypothesis Hwords : word_by_word U.
Hypothesis Hlatin : basic_latin U.

Lemma normalize_name_word_key r :
  Py.strip (product_name r) = product_name r →
  normalize_name U r = Py.join_space (word_key U (product_name r)).
Proof.
  intros Hs. unfold normalize_name, word_key.
  destruct (product_name r) as [|c s] eqn:Hn; [reflexivity|].
  cbn [Py.truthy negb]. rewrite Hs, Hwords. reflexivity.
Qed.

Lemma word_key_strip a : word_key U (Py.strip a) = word_key U a.
Proof. unfold word_key. rewrite split_strip. reflexivity. Qed.

Lemma same_word_key w1 w2 :
  same_word_up_to_case w1 w2 →
  lower U (normalize_NFKC U w1) = lower U (normalize_NFKC U w2).
Proof.
  intros [->|(H1 & H2 & Heq)]; [reflexivity|].
  destruct (Hlatin w1 H1) as [-> ->].
  destruct (Hlatin w2 H2) as [-> ->]. exact Heq.
Qed.

Lemma variant_word_key a b :
  name_variant U a b → word_key U a = word_key U b.
Proof.
  induction 1 as [a b H|a b H|a b H|a b _ IH|a b c _ IH1 _ IH2].
  - unfold word_key. rewrite H. reflexivity.
  - unfold word_key. induction H as [|w1 w2 ws1 ws2 Hw _ IH];
      [reflexivity|].
    cbn [mbind list_bind]. rewrite (same_word_key w1 w2 Hw). f_equal.
    exact IH.
  - unfold word_key. rewrite <- !Hwords, H. reflexivity.
  - symmetry. exact IH.
  - congruence.
Qed.

End variants.

Section later_duplicate.
Context (U : Unicode).

Lemma accepted_is_valid d r :
  (classify U d r).1 = Written → is_valid r = true.
Proof.
  intros H. destruct (is_valid r) eqn:Hv; [reflexivity|].
  destruct (classify_invalid U d r Hv) as [_ [H'|H']]; congruence.
Qed.

(** A later record with the key of an earlier valid record is dropped as
    a duplicate. *)
Lemma later_same_key_duplicate records d (i j : nat) ri rj :
  records !! i = Some ri → records !! j = Some rj → (i < j)%nat →
  is_valid ri = true → is_valid rj = true →
  normalize_name U ri ≠ [] →
  normalize_name U ri = normalize_name U rj →
  dispositions U d records !! j = Some Duplicate.
Proof.
  intros Hi Hj Hij Hvi Hvj Hne Hkey.
  rewrite dispositions_lookup, Hj. cbn [fmap option_fmap option_map].
  rewrite classify_valid by exact Hvj.
  rewrite decide_False by congruence.
  rewrite decide_True; [reflexivity|].
  apply detector_after_seen. right. exists i, ri.
  rewrite lookup_take_lt by exact Hij. rewrite <- Hkey. auto.
Qed.

End later_duplicate.

(** ** Many different names *)

Section many.
Import Py.

Lemma code_digits_digits width : ∀ n acc,
  Forall Sample.digit acc → Forall Sample.digit (Sample.code_digits width n acc).
Proof.
  induction width as [|width IH]; intros n acc Hacc; [exact Hacc|].
  cbn [Sample.code_digits]. apply IH. constructor; [|exact Hacc].
  unfold Sample.digit. pose proof (N.mod_lt n 10 ltac:(discriminate)) as H.
  revert H. generalize (n mod 10)%N. intros x H. lia.
Qed.

Lemma code_digits_length width : ∀ n acc,
  length (Sample.code_digits width n acc) = (width + length acc)%nat.
Proof.
  induction width as [|width IH]; intros n acc; [reflexivity|].
  cbn [Sample.code_digits]. rewrite IH. cbn [length]. lia.
Qed.

Lemma code_digits_inj width : ∀ n n' acc acc',
  (n < 10 ^ N.of_nat width)%N → (n' < 10 ^ N.of_nat width)%N →
  length acc = length acc' →
  Sample.code_digits width n acc = Sample.code_digits width n' acc' →
  n = n' ∧ acc = acc'.
Proof.
  induction width as [|width IH]; intros n n' acc acc' Hn Hn' Hlen H.
  - cbn in *. split; [lia|exact H].
  - cbn [Sample.code_digits] in H.
    assert (10 ^ N.of_nat (S width) = 10 * 10 ^ N.of_nat width)%N as Hpow.
    { rewrite Nat2N.inj_succ, N.pow_succ_r'. reflexivity. }
    rewrite Hpow in Hn, Hn'.
    apply IH in H as [Hdiv Hacc].
    + injection Hacc as Hmod Hacc. split; [|exact Hacc].
      rewrite (N.div_mod n 10), (N.div_mod n' 10) by discriminate.
      rewrite Hdiv. f_equal. lia.
    + apply N.Div0.div_lt_upper_bound. exact Hn.
    + apply N.Div0.div_lt_upper_bound. exact Hn'.
    + cbn [length]. f_equal. exact Hlen.
Qed.

Lemma code_name_inj (k k' : nat) :
  (N.of_nat k < 10000000)%N → (N.of_nat k' < 10000000)%N →
  Sample.code_name k = Sample.code_name k' → k = k'.
Proof.
  intros Hk Hk' H. unfold Sample.code_name in H.
  apply code_digits_inj in H as [H _]; [lia|..]; try reflexivity.
  - change (10 ^ N.of_nat 7)%N with 10000000%N. lia.
  - change (10 ^ N.of_nat 7)%N with 10000000%N. lia.
Qed.

Lemma digit_not_space c : Sample.digit c → is_space c = false.
Proof. unfold Sample.digit. intros H. apply is_space_false. lia. Qed.

Lemma digit_lower w : Forall Sample.digit w → map Latin.lower_char w = w.
Proof.
  induction 1 as [|c w Hc _ IH]; [reflexivity|]. cbn [map]. rewrite IH.
  f_equal. unfold Latin.lower_char, Sample.digit in *.
  destruct (65 <=? c)%N eqn:H; [apply N.leb_le in H; lia|reflexivity].
Qed.

Lemma strip_word w : is_word w → strip w = w.
Proof.
  intros [Hne Hw]. unfold strip.
  assert (rstrip w = w) as ->.
  { clear Hne. induction Hw as [|c w Hc _ IH]; [reflexivity|].
    cbn [rstrip]. rewrite IH, Hc. reflexivity. }
  destruct Hw as [|c w Hc _]; [congruence|].
  cbn [lstrip]. rewrite Hc. reflexivity.
Qed.

(** The record of a row named by a product code is valid and its key is
    the code. *)
Lemma code_name_key n k :
  is_valid (read_row n [Sample.code_name k; []]) = true ∧
  normalize_name Latin.unicode (read_row n [Sample.code_name k; []])
    = Sample.code_name k.
Proof.
  assert (Forall Sample.digit (Sample.code_name k)) as Hd
    by (apply code_digits_digits; constructor).
  assert (is_word (Sample.code_name k)) as Hw.
  { split.
    - intros E. apply (f_equal length) in E.
      unfold Sample.code_name in E. rewrite code_digits_length in E.
      discriminate.
    - eapply Forall_impl; [exact Hd|]. apply digit_not_space. }
  unfold is_valid, normalize_name.
  change (product_name (read_row n [Sample.code_name k; []]))
    with (strip (Sample.code_name k)).
  rewrite !(strip_word _ Hw).
  destruct (Sample.code_name k) as [|c w] eqn:E; [destruct Hw; congruence|].
  cbn [truthy negb Latin.unicode normalize_NFKC lower].
  split; [reflexivity|].
  rewrite digit_lower by exact Hd. rewrite split_word by exact Hw.
  reflexivity.
Qed.

Lemma many_accepted n : ∀ a m d,
  (N.of_nat (a + n) ≤ 10000000)%N →
  (∀ k, k ∈ _seen_products d →
        ∃ j, (j < a)%nat ∧ k = Sample.code_name j) →
  length (accepted Latin.unicode d
            (read_rows m ((λ k, [Sample.code_name k; []]) <$> seq a n)))
  = n.
Proof.
  induction n as [|n IH]; intros a m d Hbound Hd; [reflexivity|].
  cbn [seq fmap list_fmap read_rows accepted].
  destruct (code_name_key m a) as [Hv Hk].
  rewrite classify_valid by exact Hv. rewrite Hk.
  assert (Sample.code_name a ≠ []) as Hne.
  { intros E. apply (f_equal length) in E.
    unfold Sample.code_name in E. rewrite code_digits_length in E.
    discriminate. }
  rewrite decide_False by exact Hne.
  rewrite decide_False.
  - rewrite decide_True by reflexivity. cbn [length]. f_equal.
    apply IH; [lia|]. cbn [_seen_products]. intros k Hin.
    apply elem_of_union in Hin as [Hin|Hin].
    + apply elem_of_singleton in Hin as ->. exists a. split; [lia|].
      reflexivity.
    + destruct (Hd k Hin) as (j & Hj & ->). exists j. split; [lia|].
      reflexivity.
  - intros Hin. destruct (Hd _ Hin) as (j & Hj & Heq).
    apply code_name_inj in Heq; lia.
Qed.

Lemma many_rows_accepted n :
  (N.of_nat n ≤ 10000000)%N →
  length (accepted Latin.unicode new_detector
            (read_rows 2 (tail (Sample.many_rows n)))) = n.
Proof.
  intros Hn. unfold Sample.many_rows. cbn [tail].
  apply many_accepted; [lia|].
  intros k Hin. cbn in Hin. apply not_elem_of_empty in Hin. destruct Hin.
Qed.

End many.

(** ** The library's sheet *)

Section sink.
Context (U : Unicode).
Implicit Types (w : ExcelWriter) (r : ProductRecord)
  (records : list ProductRecord).

Lemma bind_value_stored v :
  Openpyxl._bind_value v =
    if Openpyxl.storable v then inr (Openpyxl.stored v)
    else inl Openpyxl.IllegalCharacterError.
Proof.
  unfold Openpyxl._bind_value, Openpyxl.check_string, Openpyxl.storable,
    Openpyxl.stored.
  destruct (existsb _ _); reflexivity.
Qed.

Lemma library_cell (ws : gmap (Z * Z) Py.str) row column v :
  1 ≤ row → 1 ≤ column →
  Openpyxl.cell (Openpyxl.stored <$> ws) row column v =
    if Openpyxl.storable v
    then inr (Openpyxl.stored <$> cell ws row column v)
    else inl Openpyxl.IllegalCharacterError.
Proof.
  intros Hrow Hcol. unfold Openpyxl.cell, cell.
  replace (row <? 1) with false by (symmetry; apply Z.ltb_ge; lia).
  replace (column <? 1) with false by (symmetry; apply Z.ltb_ge; lia).
  cbn [orb]. rewrite bind_value_stored.
  destruct (Openpyxl.storable v); [|reflexivity].
  rewrite fmap_insert. reflexivity.
Qed.

Lemma library_write_record w r :
  1 ≤ _current_row w →
  Xl.write_record (library_writer w) r =
    match write_record w r with
    | inl e => inl (Xl.Raised e)
    | inr w' =>
        if Xl.storable_record (column_count w) r
        then inr (library_writer w')
        else inl (Xl.Library Openpyxl.IllegalCharacterError)
    end.
Proof.
  intros Hrow. unfold Xl.write_record, write_record, Xl.storable_record.
  cbn [library_writer Xl.column_count Xl.worksheet Xl._current_row].
  destruct (Config.MAX_EXCEL_ROWS <? _current_row w); [reflexivity|].
  rewrite library_cell by lia.
  destruct (Openpyxl.storable (product_name r)); [|reflexivity].
  rewrite library_cell by lia.
  destruct (Openpyxl.storable (price r)); [|reflexivity].
  cbn [andb].
  destruct ((3 <=? column_count w) && Py.truthy (category r));
    [|reflexivity].
  rewrite library_cell by lia.
  destruct (Openpyxl.storable (category r)); reflexivity.
Qed.

Lemma library_write_all records : ∀ w,
  1 ≤ _current_row w →
  Forall (λ r, Xl.storable_record (column_count w) r = true) records →
  Xl.write_all (library_writer w) records =
    match write_all w records with
    | inl e => inl (Xl.Raised e)
    | inr w' => inr (library_writer w')
    end.
Proof.
  induction records as [|r records IH]; intros w Hrow Hall;
    cbn [Xl.write_all write_all]; [reflexivity|].
  apply Forall_cons in Hall as [Hr Hall].
  rewrite library_write_record, Hr by exact Hrow.
  destruct (write_record w r) as [e|w1] eqn:Hw; [reflexivity|].
  apply write_record_inr in Hw as (_ & Hrow1 & Hcol).
  apply IH; [lia|]. rewrite Hcol. exact Hall.
Qed.

Lemma library_write_all_inr records : ∀ w xw,
  1 ≤ _current_row w →
  Xl.write_all (library_writer w) records = inr xw →
  Forall (λ r, Xl.storable_record (column_count w) r = true) records ∧
  ∃ w', write_all w records = inr w' ∧ xw = library_writer w'.
Proof.
  induction records as [|r records IH]; intros w xw Hrow H;
    cbn [Xl.write_all write_all] in *.
  - injection H as <-. split; [constructor|]. eauto.
  - rewrite library_write_record in H by exact Hrow.
    destruct (write_record w r) as [e|w1] eqn:Hw; [discriminate|].
    destruct (Xl.storable_record (column_count w) r) eqn:Hr;
      [|discriminate].
    apply write_record_inr in Hw as (_ & Hrow1 & Hcol).
    apply IH in H as [Hall H]; [|lia]. rewrite Hcol in Hall.
    split; [constructor; assumption|exact H].
Qed.

Lemma library_write_all_inl records : ∀ w e,
  1 ≤ _current_row w →
  Xl.write_all (library_writer w) records = inl e →
  (e = Xl.Raised RowLimitReached ∧
   Config.MAX_EXCEL_ROWS + 1 < _current_row w + Z.of_nat (length records)) ∨
  (e = Xl.Library Openpyxl.IllegalCharacterError ∧
   Exists (λ r, Xl.storable_record (column_count w) r = false) records).
Proof.
  induction records as [|r records IH]; intros w e Hrow H;
    cbn [Xl.write_all] in H; [discriminate|].
  rewrite library_write_record in H by exact Hrow.
  destruct (write_record w r) as [e'|w1] eqn:Hw.
  - apply write_record_inl in Hw as [-> Hlim]. injection H as <-.
    left. split; [reflexivity|]. cbn [length]. lia.
  - destruct (Xl.storable_record (column_count w) r) eqn:Hr.
    + apply write_record_inr in Hw as (_ & Hrow1 & Hcol).
      apply IH in H as [[-> H]|[-> H]]; [| |lia].
      * left. split; [reflexivity|]. cbn [length]. lia.
      * right. split; [reflexivity|]. apply Exists_cons_tl.
        rewrite <- Hcol. exact H.
    + injection H as <-. right. split; [reflexivity|].
      apply Exists_cons_hd. exact Hr.
Qed.

(** *** Headers *)

Lemma legal_from_space c : (32 ≤ c)%N → Openpyxl.illegal_character c = false.
Proof.
  intros H. unfold Openpyxl.illegal_character.
  replace (c <=? 8)%N with false by (symmetry; apply N.leb_gt; lia).
  replace (c =? 11)%N with false by (symmetry; apply N.eqb_neq; lia).
  replace (c =? 12)%N with false by (symmetry; apply N.eqb_neq; lia).
  replace (c <=? 31)%N with false by (symmetry; apply N.leb_gt; lia).
  rewrite andb_false_r. reflexivity.
Qed.

Lemma storable_legal v :
  Forall (λ c, Openpyxl.illegal_character c = false) v →
  Openpyxl.storable v = true.
Proof.
  intros H. unfold Openpyxl.storable. apply negb_true_iff.
  apply not_true_iff_false. intros Hex.
  apply existsb_exists in Hex as (c & Hin & Hc).
  apply list_elem_of_In in Hin.
  assert (c ∈ v) as Hv.
  { eapply elem_of_sublist; [exact Hin|apply sublist_take]. }
  rewrite Forall_forall in H. rewrite (H c Hv) in Hc. discriminate.
Qed.

Lemma digits_fuel_legal fuel : ∀ n acc,
  Forall (λ c, Openpyxl.illegal_character c = false) acc →
  Forall (λ c, Openpyxl.illegal_character c = false)
         (Py.digits_fuel fuel n acc).
Proof.
  induction fuel as [|fuel IH]; intros n acc Hacc; cbn [Py.digits_fuel];
    [exact Hacc|].
  assert (Forall (λ c, Openpyxl.illegal_character c = false)
                 ((48 + n mod 10)%N :: acc)) as Hacc'.
  { constructor; [|exact Hacc]. apply legal_from_space.
    generalize (n mod 10)%N. intros x. lia. }
  destruct (n <? 10)%N; [exact Hacc'|]. apply IH. exact Hacc'.
Qed.

Lemma header_text_storable i : Openpyxl.storable (header_text i) = true.
Proof.
  unfold header_text.
  destruct (Config.DEFAULT_HEADERS !! i) as [v|] eqn:H.
  - unfold Config.DEFAULT_HEADERS in H.
    rewrite !lookup_insert, lookup_empty in H.
    repeat case_decide; try discriminate; injection H as <-;
      reflexivity.
  - cbn [default]. apply storable_legal. apply Forall_app. split.
    + repeat constructor.
    + apply digits_fuel_legal. constructor.
Qed.

Lemma library_header_cells (cols : list Z) : ∀ ws : gmap (Z * Z) Py.str,
  Forall (λ i, 0 ≤ i) cols →
  Xl.header_cells cols (Openpyxl.stored <$> ws) =
    inr (Openpyxl.stored <$>
           foldl (λ ws col_idx, cell ws 1 (col_idx + 1) (header_text col_idx))
                 ws cols).
Proof.
  induction cols as [|i cols IH]; intros ws Hcols;
    cbn [Xl.header_cells foldl]; [reflexivity|].
  apply Forall_cons in Hcols as [Hi Hcols].
  rewrite library_cell, header_text_storable by lia.
  apply IH. exact Hcols.
Qed.

Lemma column_letters_limit columns :
  Xl.column_letters (seqZ 0 columns) =
    if 18278 <? columns then inl Openpyxl.ValueError else inr tt.
Proof.
  unfold Xl.column_letters.
  destruct (existsb _ _) eqn:Hex.
  - apply existsb_exists in Hex as (i & Hin & Hi).
    apply list_elem_of_In, elem_of_seqZ in Hin.
    unfold Openpyxl.get_column_letter_raises in Hi.
    apply negb_true_iff, andb_false_iff in Hi.
    replace (18278 <? columns) with true; [reflexivity|].
    symmetry. apply Z.ltb_lt.
    destruct Hi as [Hi|Hi]; [apply Z.leb_gt in Hi|apply Z.leb_gt in Hi]; lia.
  - destruct (18278 <? columns) eqn:Hlim; [|reflexivity].
    apply Z.ltb_lt in Hlim. exfalso.
    apply not_true_iff_false in Hex. apply Hex.
    apply existsb_exists. exists 18278. split.
    + apply list_elem_of_In, elem_of_seqZ. lia.
    + reflexivity.
Qed.

Lemma library_new_writer columns :
  Xl.new_writer columns =
    if 18278 <? columns then inl Openpyxl.ValueError
    else inr (library_writer (new_writer columns)).
Proof.
  unfold Xl.new_writer, Xl._setup_headers.
  rewrite <- (fmap_empty Openpyxl.stored).
  rewrite library_header_cells.
  - rewrite column_letters_limit.
    destruct (18278 <? columns); reflexivity.
  - apply Forall_forall. intros i Hi. apply elem_of_seqZ in Hi. lia.
Qed.

(** *** Writes from a fresh writer *)

Lemma fresh_write_all_inr columns records xw :
  Xl.write_all (library_writer (new_writer columns)) records = inr xw →
  Z.of_nat (length records) ≤ Config.MAX_EXCEL_ROWS - 1 ∧
  Forall (λ r, Xl.storable_record columns r = true) records ∧
  Xl._current_row xw = 2 + Z.of_nat (length records) ∧
  ∃ w, write_all (new_writer columns) records = inr w ∧
       xw = library_writer w.
Proof.
  intros H.
  apply library_write_all_inr in H as (Hall & w & Hw & ->); [|cbn; lia].
  pose proof (write_all_inr _ _ _ Hw) as (Hrow & _ & Hlim).
  cbn [new_writer _current_row column_count] in *.
  split; [|split; [exact Hall|split; [exact Hrow|eauto]]].
  destruct records as [|r records]; [cbn; unfold Config.MAX_EXCEL_ROWS; lia|].
  specialize (Hlim ltac:(discriminate)). lia.
Qed.

Lemma fresh_write_all_fits columns records :
  Z.of_nat (length records) ≤ Config.MAX_EXCEL_ROWS - 1 →
  Forall (λ r, Xl.storable_record columns r = true) records →
  ∃ xw, Xl.write_all (library_writer (new_writer columns)) records = inr xw.
Proof.
  intros Hlen Hall.
  rewrite library_write_all; [|cbn; lia|exact Hall].
  destruct (write_all_fits records (new_writer columns)) as [w ->];
    [cbn [new_writer _current_row]; lia|].
  eauto.
Qed.

Lemma fresh_write_all_inl columns records e :
  Xl.write_all (library_writer (new_writer columns)) records = inl e →
  (e = Xl.Raised RowLimitReached ∧
   Config.MAX_EXCEL_ROWS - 1 < Z.of_nat (length records)) ∨
  (e = Xl.Library Openpyxl.IllegalCharacterError ∧
   Exists (λ r, Xl.storable_record columns r = false) records).
Proof.
  intros H. apply library_write_all_inl in H; [|cbn; lia].
  cbn [new_writer _current_row column_count] in H.
  destruct H as [[-> H]|[-> H]]; [left|right]; (split; [reflexivity|]);
    [lia|exact H].
Qed.

Lemma fresh_write_all_overflow columns records :
  Forall (λ r, Xl.storable_record columns r = true) records →
  Config.MAX_EXCEL_ROWS - 1 < Z.of_nat (length records) →
  Xl.write_all (library_writer (new_writer columns)) records
    = inl (Xl.Raised RowLimitReached).
Proof.
  intros Hall Hlen.
  rewrite library_write_all; [|cbn; lia|exact Hall].
  rewrite write_all_overflow; [reflexivity|..];
    cbn [new_writer _current_row]; unfold Config.MAX_EXCEL_ROWS in *; lia.
Qed.

Lemma library_write_all_app records1 records2 : ∀ xw : Xl.ExcelWriter,
  Xl.write_all xw (records1 ++ records2) =
    match Xl.write_all xw records1 with
    | inl e => inl e
    | inr xw' => Xl.write_all xw' records2
    end.
Proof.
  induction records1 as [|r records1 IH]; intros xw; [reflexivity|].
  cbn [app Xl.write_all].
  destruct (Xl.write_record xw r) as [e|xw']; [reflexivity|apply IH].
Qed.

(** More records than the sheet has rows for: the writes raise; at the row
    limit when the library accepts the values of the records that fit. *)
Lemma fresh_write_all_long columns records :
  Config.MAX_EXCEL_ROWS - 1 < Z.of_nat (length records) →
  ∃ e,
    Xl.write_all (library_writer (new_writer columns)) records = inl e ∧
    (Forall (λ r, Xl.storable_record columns r = true)
            (take (Z.to_nat (Config.MAX_EXCEL_ROWS - 1)) records) →
     e = Xl.Raised RowLimitReached).
Proof.
  intros Hlen.
  destruct (Xl.write_all _ records) as [e|xw] eqn:Hw.
  2:{ apply fresh_write_all_inr in Hw as (H & _). lia. }
  exists e. split; [reflexivity|]. intros Hall.
  set (n := Z.to_nat (Config.MAX_EXCEL_ROWS - 1)) in *.
  assert (Z.of_nat n = Config.MAX_EXCEL_ROWS - 1) as Hn
    by (unfold n, Config.MAX_EXCEL_ROWS; lia).
  rewrite <- (take_drop n records), library_write_all_app in Hw.
  rewrite library_write_all in Hw; [|cbn; lia|exact Hall].
  destruct (write_all_fits (take n records) (new_writer columns))
    as [w Hfit].
  { rewrite length_take. cbn [new_writer _current_row]. lia. }
  rewrite Hfit in Hw.
  apply write_all_inr in Hfit as (Hrow & _ & _).
  rewrite length_take in Hrow. cbn [new_writer _current_row] in Hrow.
  destruct (drop n records) as [|r after] eqn:Hdrop.
  { apply (f_equal length) in Hdrop. rewrite length_drop in Hdrop.
    cbn [length] in Hdrop. lia. }
  cbn [Xl.write_all] in Hw.
  rewrite library_write_record in Hw by lia.
  unfold write_record in Hw.
  replace (Config.MAX_EXCEL_ROWS <? _current_row w) with true in Hw
    by (symmetry; apply Z.ltb_lt; lia).
  congruence.
Qed.


(** *** The loop and the conversion *)

Lemma library_process_record_classify (c : Xl.Converter) r :
  Xl.process_record U c r =
    match classify U (Xl.duplicate_detector c) r with
    | (Written, d') =>
        match Xl.write_record (Xl.excel_writer c) r with
        | inl e => inl e
        | inr w =>
            inr {| Xl.statistics := tally (Xl.statistics c) Written;
                   Xl.duplicate_detector := d'; Xl.excel_writer := w |}
        end
    | (o, d') =>
        inr {| Xl.statistics := tally (Xl.statistics c) o;
               Xl.duplicate_detector := d';
               Xl.excel_writer := Xl.excel_writer c |}
    end.
Proof.
  unfold Xl.process_record, classify.
  destruct (negb (Py.truthy (product_name r)) && negb (Py.truthy (price r)));
    [reflexivity|].
  destruct (negb (is_valid r)); [reflexivity|].
  destruct (is_duplicate U (Xl.duplicate_detector c) r) as [[] d'];
    reflexivity.
Qed.

Lemma library_process_records_spec records : ∀ c : Xl.Converter,
  Xl.process_records U c records =
    match Xl.write_all (Xl.excel_writer c)
                       (accepted U (Xl.duplicate_detector c) records) with
    | inl e => inl e
    | inr w =>
        inr {| Xl.statistics :=
                 foldl tally (Xl.statistics c)
                       (dispositions U (Xl.duplicate_detector c) records);
               Xl.duplicate_detector :=
                 detector_after U (Xl.duplicate_detector c) records;
               Xl.excel_writer := w |}
    end.
Proof.
  induction records as [|r records IH]; intros c.
  - destruct c; reflexivity.
  - cbn [Xl.process_records accepted dispositions detector_after foldl].
    rewrite library_process_record_classify.
    destruct (classify U (Xl.duplicate_detector c) r) as [o d'].
    cbn [snd].
    destruct (decide (o = Written)) as [->|Hne].
    + cbn [Xl.write_all].
      destruct (Xl.write_record (Xl.excel_writer c) r) as [e|w];
        [reflexivity|].
      rewrite IH. reflexivity.
    + destruct o; try congruence; rewrite IH; reflexivity.
Qed.

(** [Xl.convert] on a readable file, in terms of the decisions of the
    loop. *)
Lemma library_convert_content can_save rows :
  Xl.convert U can_save (Content rows) =
    let records := read_rows 2 (tail rows) in
    let os := dispositions U new_detector records in
    let columns := detect_column_count (Content rows) in
    if 18278 <? columns
    then Xl.RaisedBeforeSave (Xl.Library Openpyxl.ValueError)
    else
      match Xl.write_all (library_writer (new_writer columns))
                         (accepted U new_detector records) with
      | inl e => Xl.RaisedBeforeSave e
      | inr xw =>
          if can_save then
            Xl.Returned
              {| total_rows_read := Z.of_nat (length records);
                 empty_rows_skipped := occurrences Blank os;
                 invalid_rows_skipped := occurrences Invalid os;
                 duplicate_rows_skipped := occurrences Duplicate os;
                 unique_products_written := occurrences Written os;
                 columns_detected := columns |}
              (Xl.worksheet xw)
          else Xl.RaisedInSave
      end.
Proof.
  unfold Xl.convert, read_records. rewrite library_new_writer. cbv zeta.
  destruct (18278 <? detect_column_count (Content rows)); [reflexivity|].
  rewrite library_process_records_spec.
  cbn [Xl.statistics Xl.duplicate_detector Xl.excel_writer].
  destruct (Xl.write_all _ _) as [e|xw] eqn:Hw; [reflexivity|].
  destruct can_save; [|reflexivity].
  cbn [Xl.statistics Xl.duplicate_detector Xl.excel_writer].
  apply library_write_all_inr in Hw as (_ & w' & Hw & ->);
    [|cbn; lia].
  apply write_all_inr in Hw as (Hrow & _ & _).
  unfold Xl.get_rows_written, get_duplicate_count.
  cbn [library_writer Xl._current_row Xl.worksheet].
  rewrite tally_total, tally_empty, tally_invalid, tally_columns,
    detector_after_count, dispositions_length, <- accepted_length, Hrow.
  cbn [total_rows_read empty_rows_skipped invalid_rows_skipped
       columns_detected new_detector _duplicate_count new_writer
       _current_row].
  f_equal. f_equal; lia.
Qed.


(** A conversion that returns is a conversion over the handed values that
    returns, with the same statistics, and its sheet is what the library
    keeps of each handed value. *)
Lemma library_convert_returned can_save rows d stats sheet :
  Xl.convert U can_save (Content rows) = Xl.Returned stats sheet →
  can_save = true ∧
  detect_column_count (Content rows) ≤ 18278 ∧
  Forall (λ r, Xl.storable_record (detect_column_count (Content rows)) r
               = true)
         (accepted U new_detector (read_rows 2 (tail rows))) ∧
  ∃ ws,
    convert U (Content rows) d = (inr stats, Some ws) ∧
    sheet = Openpyxl.stored <$> ws.
Proof.
  rewrite library_convert_content, convert_content. cbv zeta.
  destruct (18278 <? _) eqn:Hlim; [discriminate|].
  apply Z.ltb_ge in Hlim.
  destruct (Xl.write_all _ _) as [e|xw] eqn:Hw; [discriminate|].
  destruct can_save; [|discriminate].
  intros H. injection H as <- <-.
  apply library_write_all_inr in Hw as (Hall & w' & Hw & ->); [|cbn; lia].
  rewrite Hw. repeat split; [exact Hlim|exact Hall|].
  exists (worksheet w'). split; reflexivity.
Qed.

End sink.

(** *** The rows named by product codes *)

Section many_sink.
Import Py.

Lemma many_rows_columns n :
  detect_column_count (Content (Sample.many_rows n)) = 2.
Proof.
  unfold Sample.many_rows. rewrite detect_column_count_cons. reflexivity.
Qed.

Lemma digits_storable w : Forall Sample.digit w → Openpyxl.storable w = true.
Proof.
  intros H. apply storable_legal. eapply Forall_impl; [exact H|].
  intros c Hc. apply legal_from_space. unfold Sample.digit in Hc. lia.
Qed.

Lemma many_rows_storable n columns :
  columns < 3 →
  Forall (λ r, Xl.storable_record columns r = true)
         (accepted Latin.unicode new_detector
            (read_rows 2 (tail (Sample.many_rows n)))).
Proof.
  intros Hcols. apply Forall_forall. intros r Hin.
  assert (r ∈ read_rows 2 (tail (Sample.many_rows n))) as Hr.
  { eapply elem_of_sublist; [exact Hin|apply accepted_sublist]. }
  apply list_elem_of_lookup in Hr as [i Hi].
  rewrite read_rows_lookup in Hi.
  unfold Sample.many_rows in Hi. cbn [tail] in Hi.
  rewrite list_lookup_fmap in Hi.
  destruct (seq 0 n !! i) as [k|]; [|discriminate].
  cbn [fmap option_fmap option_map] in Hi. injection Hi as <-.
  assert (Forall Sample.digit (Sample.code_name k)) as Hd
    by (apply code_digits_digits; constructor).
  assert (is_word (Sample.code_name k)) as Hw.
  { split.
    - intros E. apply (f_equal length) in E.
      unfold Sample.code_name in E. rewrite code_digits_length in E.
      discriminate.
    - eapply Forall_impl; [exact Hd|]. apply digit_not_space. }
  unfold Xl.storable_record.
  cbn [product_name price category].
  change (stripped_field [Sample.code_name k; []] 0)
    with (strip (Sample.code_name k)).
  change (stripped_field [Sample.code_name k; []] 1) with (strip []).
  rewrite (strip_word _ Hw), (digits_storable _ Hd).
  replace (3 <=? columns) with false by (symmetry; apply Z.leb_gt; lia).
  reflexivity.
Qed.

End many_sink.

(** * The claims *)

(** ** Statistics *)

(** C2.  When [convert] returns, the total of rows read is the sum of the
    blank, invalid and duplicate rows skipped and the records written: the
    four counters are the numbers of records that took each of the four
    branches of the loop, and every record takes exactly one. *)
Theorem statistics_partition U f d stats d' :
  convert U f d = (inr stats, d') →
  ∃ records, read_records f true = inr records ∧
    let os := dispositions U new_detector records in
    length os = length records ∧
    total_rows_read stats = Z.of_nat (length records) ∧
    empty_rows_skipped stats = occurrences Blank os ∧
    invalid_rows_skipped stats = occurrences Invalid os ∧
    duplicate_rows_skipped stats = occurrences Duplicate os ∧
    unique_products_written stats = occurrences Written os ∧
    total_rows_read stats =
      empty_rows_skipped stats + invalid_rows_skipped stats
      + duplicate_rows_skipped stats + unique_products_written stats.
Proof.
  destruct f as [|rows]; [rewrite convert_unreadable; discriminate|].
  rewrite convert_content. cbv zeta.
  destruct (write_all _ _) as [e|w]; [discriminate|].
  intros H. injection H as <- <-.
  exists (read_rows 2 (tail rows)). split; [reflexivity|].
  cbv zeta. cbn [total_rows_read empty_rows_skipped invalid_rows_skipped
                 duplicate_rows_skipped unique_products_written].
  rewrite dispositions_length. repeat split.
  rewrite <- occurrences_partition, dispositions_length. reflexivity.
Qed.

Lemma statistics_partition_witness :
  ∃ stats d',
    convert Latin.unicode (Content Sample.scenario_A) None = (inr stats, d') ∧
    total_rows_read stats =
      empty_rows_skipped stats + invalid_rows_skipped stats
      + duplicate_rows_skipped stats + unique_products_written stats.
Proof.
  eexists _, _. split; [vm_compute; reflexivity|].
  destruct (statistics_partition Latin.unicode (Content Sample.scenario_A)
              None _ _ eq_refl) as (records & _ & H).
  apply H.
Defined.

(** ** Rejections *)

(** C5.  A record whose name is empty after trimming and whose price is not
    empty takes the invalid branch: the invalid counter goes up, the blank
    counter does not, nothing is written and the detector, with its
    seen-set, stays as it was.  For the rows ["",""] and ["","5"] after the
    header the first is counted blank, the second invalid, and nothing is
    written. *)
Theorem empty_name_with_price_invalid :
  (∀ U c r,
     Py.strip (product_name r) = [] → price r ≠ [] →
     classify U (duplicate_detector c) r = (Invalid, duplicate_detector c) ∧
     process_record U c r =
       inr {| statistics := count_invalid (count_row (statistics c));
              duplicate_detector := duplicate_detector c;
              excel_writer := excel_writer c |}) ∧
  (∀ U d,
     dispositions U new_detector (read_rows 2 (tail Sample.scenario_B))
       = [Blank; Invalid] ∧
     ∃ ws, convert U (Content Sample.scenario_B) d =
       (inr {| total_rows_read := 2; empty_rows_skipped := 1;
               invalid_rows_skipped := 1; duplicate_rows_skipped := 0;
               unique_products_written := 0; columns_detected := 2 |},
        Some ws) ∧
       ∀ row column, 2 ≤ row → ws !! (row, column) = None).
Proof.
  split.
  - intros U c r Hname Hprice.
    assert (classify U (duplicate_detector c) r
            = (Invalid, duplicate_detector c)) as Hc.
    { unfold classify, is_valid. rewrite Hname.
      apply truthy_true in Hprice. rewrite Hprice, andb_false_r.
      reflexivity. }
    split; [exact Hc|]. rewrite process_record_classify, Hc. reflexivity.
  - intros U d. split; [reflexivity|].
    exists (_setup_headers 2 ∅). split; [reflexivity|].
    intros row column Hrow. rewrite setup_headers_lookup.
    rewrite decide_False by lia. apply lookup_empty.
Qed.

Lemma empty_name_with_price_invalid_witness :
  classify Latin.unicode new_detector (Sample.record [] [53]%N)
    = (Invalid, new_detector).
Proof.
  destruct empty_name_with_price_invalid as [H _].
  apply (H Latin.unicode
           {| statistics := tally (tally
                 {| total_rows_read := 0; empty_rows_skipped := 0;
                    invalid_rows_skipped := 0; duplicate_rows_skipped := 0;
                    unique_products_written := 0; columns_detected := 2 |}
                 Blank) Blank;
              duplicate_detector := new_detector;
              excel_writer := new_writer 2 |}
           (Sample.record [] [53]%N)).
  - reflexivity.
  - discriminate.
Defined.

(** C10.  For a record whose name normalises to the empty string the
    duplicate check answers no and leaves the detector as it was: nothing is
    put into the seen-set and the duplicate count stays. *)
Theorem empty_key_not_duplicate U d r :
  normalize_name U r = [] → is_duplicate U d r = (false, d).
Proof. intros H. unfold is_duplicate. rewrite H. reflexivity. Qed.

Lemma empty_key_not_duplicate_witness :
  is_duplicate Latin.unicode
    {| _seen_products := {[ [97]%N ]}; _duplicate_count := 3 |}
    (Sample.record [] [53]%N)
  = (false, {| _seen_products := {[ [97]%N ]}; _duplicate_count := 3 |}).
Proof. apply empty_key_not_duplicate. reflexivity. Defined.

(** ** Column count *)

(** C7.  The detected column count is the number of cells of the first row
    that are not blank, or 2 when that is less; it is 2 when there is no
    first row or the first row has no fields.  It is computed from the first
    row of the file alone: the rows after it do not matter, and neither does
    the reader's skipping of the header, which happens in another pass. *)
Theorem detect_column_count_first_row :
  (∀ first_row rest,
     detect_column_count (Content (first_row :: rest)) =
       Z.max (Z.of_nat (length (filter non_blank first_row))) 2) ∧
  detect_column_count (Content []) = 2 ∧
  (∀ rest, detect_column_count (Content ([] :: rest)) = 2) ∧
  (∀ first_row rest rest',
     detect_column_count (Content (first_row :: rest)) =
     detect_column_count (Content (first_row :: rest'))) ∧
  (∀ f, 2 ≤ detect_column_count f).
Proof.
  assert (∀ row : list Py.str,
    length (List.filter (λ col, Py.truthy (Py.strip col)) row)
    = length (filter non_blank row)) as Hcount.
  { induction row as [|col row IH]; [reflexivity|].
    cbn [List.filter]. rewrite filter_cons.
    destruct (Py.truthy (Py.strip col)) eqn:Hcol.
    - rewrite decide_True by (apply truthy_strip_non_blank; exact Hcol).
      cbn [length]. rewrite IH. reflexivity.
    - rewrite decide_False; [exact IH|].
      rewrite <- truthy_strip_non_blank. congruence. }
  repeat split.
  - intros [|col row] rest; cbn [detect_column_count]; [reflexivity|].
    rewrite Hcount. reflexivity.
  - intros f. destruct f as [|[|[|col row] rest]]; cbn [detect_column_count];
      lia.
Qed.

(** ** Order and first occurrence *)

(** C3.  The admitted records are the records read, restricted to those the
    loop admits, in the order they were read: a subsequence of the input,
    written one per row from row 2 on in that order.  Among the records that
    pass the blank and validity checks and share a canonical key, the first
    in read order is admitted and every later one is dropped as a duplicate.
    (A valid name has a non-empty key where lowercased NFKC keeps text.) *)
Theorem accepted_in_order_first_wins U rows d stats d' :
  keeps_text U →
  convert U (Content rows) d = (inr stats, d') →
  let records := read_rows 2 (tail rows) in
  let os := dispositions U new_detector records in
  let kept := accepted U new_detector records in
  kept = (filter (λ p, p.2 = Written) (zip records os)).*1 ∧
  sublist kept records ∧
  unique_products_written stats = Z.of_nat (length kept) ∧
  (∃ ws, d' = Some ws ∧
     ∀ (k : nat) column,
       ws !! (2 + Z.of_nat k, column) =
         kept !! k ≫= (λ r, written_cell (columns_detected stats) r column)) ∧
  (∀ i j ri rj,
     records !! i = Some ri → records !! j = Some rj → (i < j)%nat →
     is_valid ri = true → is_valid rj = true →
     normalize_name U ri = normalize_name U rj →
     os !! j = Some Duplicate) ∧
  (∀ i ri,
     records !! i = Some ri → is_valid ri = true →
     (∀ i' ri', (i' < i)%nat → records !! i' = Some ri' →
                is_valid ri' = true →
                normalize_name U ri' ≠ normalize_name U ri) →
     os !! i = Some Written).
Proof.
  intros HU Hconv records os kept.
  apply convert_inr in Hconv as (w & Hw & -> & ->).
  cbn [unique_products_written columns_detected].
  split; [apply accepted_filter|].
  split; [apply accepted_sublist|].
  split; [reflexivity|].
  split.
  { exists (worksheet w). split; [reflexivity|]. intros k column.
    rewrite (sheet_lookup _ _ _ _ _ Hw).
    rewrite decide_False by lia. rewrite decide_True by lia.
    replace (Z.to_nat (2 + Z.of_nat k - 2)) with k by lia. reflexivity. }
  split.
  - intros i j ri rj Hi Hj Hij Hvi Hvj Hkey.
    unfold os. rewrite dispositions_lookup. fold records. rewrite Hj.
    cbn [fmap option_fmap option_map].
    rewrite classify_valid by exact Hvj.
    rewrite decide_False by (apply valid_key_nonempty; assumption).
    rewrite decide_True; [reflexivity|].
    apply detector_after_seen. right. exists i, ri.
    rewrite lookup_take_lt by exact Hij.
    repeat split; try assumption. rewrite <- Hkey.
    apply valid_key_nonempty; assumption.
  - intros i ri Hi Hvi Hfirst.
    unfold os. rewrite dispositions_lookup. fold records. rewrite Hi.
    cbn [fmap option_fmap option_map].
    rewrite classify_valid by exact Hvi.
    rewrite decide_False by (apply valid_key_nonempty; assumption).
    rewrite decide_False; [reflexivity|].
    intros Hin. apply detector_after_seen in Hin as [Hin|Hin].
    + cbn in Hin. apply not_elem_of_empty in Hin. exact Hin.
    + destruct Hin as (i' & ri' & Hi' & Hvi' & Hk & _).
      apply lookup_take_Some in Hi' as [Hi' Hlt].
      exact (Hfirst i' ri' Hlt Hi' Hvi' Hk).
Qed.

Lemma accepted_in_order_first_wins_witness :
  dispositions Latin.unicode new_detector
    (read_rows 2 (tail Sample.scenario_A)) !! 1%nat = Some Duplicate.
Proof.
  destruct (accepted_in_order_first_wins Latin.unicode Sample.scenario_A None
              _ _ latin_keeps_text eq_refl) as (_ & _ & _ & _ & H & _).
  apply (H 0%nat 1%nat
           (read_row 2 [[65; 112; 112; 108; 101]%N; [49; 48]%N])
           (read_row 3 [[97; 112; 112; 108; 101; 32]%N; [32; 49; 48]%N]));
    [reflexivity|reflexivity|lia|reflexivity|reflexivity|reflexivity].
Defined.

(** ** Field values *)

(** C4, as the code has it.  The name, the price and the category that
    reach the sheet are the parsed fields with surrounding whitespace
    trimmed (the reader trims all three fields, a missing field being
    empty).  The converter hands each of them to the sheet as text, without
    conversion; what the sheet then holds is the library's doing: the first
    32,767 characters of the text, as a string cell, or as a formula cell
    when the text has more than one character and starts with an equals
    sign, or as an error cell when it is one of the error codes.  A run
    that returns has met no control character among the characters kept.
    The category is written only on a sheet of three or more columns and
    only when it is not empty.  In particular a field of at most 32,767
    characters that neither starts with an equals sign nor is an error code
    is in the sheet as a string cell with the trimmed field as its text. *)
Theorem output_cells_from_trimmed_fields U can_save rows stats sheet :
  Xl.convert U can_save (Content rows) = Xl.Returned stats sheet →
  ∀ (k : nat) r,
    accepted U new_detector (read_rows 2 (tail rows)) !! k = Some r →
    ∃ (i : nat) row,
      tail rows !! i = Some row ∧ r = read_row (2 + Z.of_nat i) row ∧
      sheet !! (2 + Z.of_nat k, 1)
        = Some (Openpyxl.stored (stripped_field row 0)) ∧
      sheet !! (2 + Z.of_nat k, 2)
        = Some (Openpyxl.stored (stripped_field row 1)) ∧
      sheet !! (2 + Z.of_nat k, 3) =
        (if decide (3 ≤ columns_detected stats ∧ stripped_field row 2 ≠ [])
         then Some (Openpyxl.stored (stripped_field row 2)) else None) ∧
      Openpyxl.storable (stripped_field row 0) = true ∧
      Openpyxl.storable (stripped_field row 1) = true ∧
      (3 ≤ columns_detected stats → stripped_field row 2 ≠ [] →
       Openpyxl.storable (stripped_field row 2) = true) ∧
      ((length (stripped_field row 1) ≤ 32767)%nat →
       head (stripped_field row 1) ≠ Some 61%N →
       stripped_field row 1 ∉ Openpyxl.ERROR_CODES →
       sheet !! (2 + Z.of_nat k, 2)
         = Some {| Openpyxl.data_type_of := Openpyxl.TYPE_STRING;
                   Openpyxl.value := stripped_field row 1 |}) ∧
      (3 ≤ columns_detected stats → stripped_field row 2 ≠ [] →
       (length (stripped_field row 2) ≤ 32767)%nat →
       head (stripped_field row 2) ≠ Some 61%N →
       stripped_field row 2 ∉ Openpyxl.ERROR_CODES →
       sheet !! (2 + Z.of_nat k, 3)
         = Some {| Openpyxl.data_type_of := Openpyxl.TYPE_STRING;
                   Openpyxl.value := stripped_field row 2 |}).
Proof.
  intros Hconv k r Hk.
  apply (library_convert_returned U can_save rows None) in Hconv
    as (_ & _ & Hall & ws & Hconv & ->).
  apply convert_inr in Hconv as (w & Hw & [= ->] & ->).
  cbn [columns_detected].
  assert (r ∈ read_rows 2 (tail rows)) as Hin.
  { eapply elem_of_sublist; [|apply accepted_sublist].
    eapply list_elem_of_lookup_2. exact Hk. }
  apply list_elem_of_lookup in Hin as [i Hi].
  rewrite read_rows_lookup in Hi.
  destruct (tail rows !! i) as [row|] eqn:Hrow; [|discriminate].
  injection Hi as <-. exists i, row.
  split; [exact Hrow|]. split; [reflexivity|].
  destruct (read_row_fields (2 + Z.of_nat i) row) as (Hn & Hp & Hc).
  rewrite Forall_forall in Hall.
  pose proof (Hall _ (list_elem_of_lookup_2 _ _ _ Hk)) as Hst.
  unfold Xl.storable_record in Hst. rewrite Hn, Hp, Hc in Hst.
  apply andb_true_iff in Hst as [Hst Hst3].
  apply andb_true_iff in Hst as [Hst1 Hst2].
  assert (∀ column,
            (Openpyxl.stored <$> worksheet w) !! (2 + Z.of_nat k, column)
            = Openpyxl.stored <$>
                written_cell (detect_column_count (Content rows))
                  (read_row (2 + Z.of_nat i) row) column) as Hcell.
  { intros column. rewrite lookup_fmap, (sheet_lookup _ _ _ _ _ Hw).
    rewrite decide_False by lia. rewrite decide_True by lia.
    replace (Z.to_nat (2 + Z.of_nat k - 2)) with k by lia. rewrite Hk.
    reflexivity. }
  assert ((Openpyxl.stored <$> worksheet w) !! (2 + Z.of_nat k, 3) =
          if decide (3 ≤ detect_column_count (Content rows)
                     ∧ stripped_field row 2 ≠ [])
          then Some (Openpyxl.stored (stripped_field row 2)) else None)
    as Hcell3.
  { rewrite Hcell. unfold written_cell. rewrite Hc.
    rewrite !decide_False by lia.
    repeat case_decide; try reflexivity; exfalso; naive_solver lia. }
  assert (∀ v, (length v ≤ 32767)%nat → head v ≠ Some 61%N →
               v ∉ Openpyxl.ERROR_CODES →
               Openpyxl.stored v
               = {| Openpyxl.data_type_of := Openpyxl.TYPE_STRING;
                    Openpyxl.value := v |}) as Hplain.
  { intros v Hlen Hhead Herr. unfold Openpyxl.stored, Openpyxl.string_type.
    rewrite take_ge by exact Hlen.
    rewrite (bool_decide_eq_false_2 _ Hhead), andb_false_r.
    rewrite (bool_decide_eq_false_2 _ Herr). reflexivity. }
  assert ((Openpyxl.stored <$> worksheet w) !! (2 + Z.of_nat k, 2)
          = Some (Openpyxl.stored (stripped_field row 1))) as Hcell2.
  { rewrite Hcell. unfold written_cell. rewrite Hp. reflexivity. }
  split; [|split; [|split; [|split; [|split; [|split; [|split]]]]]].
  - rewrite Hcell. unfold written_cell. rewrite Hn. reflexivity.
  - exact Hcell2.
  - exact Hcell3.
  - exact Hst1.
  - exact Hst2.
  - intros H3 Hcat.
    replace (3 <=? detect_column_count (Content rows)) with true in Hst3
      by (symmetry; apply Z.leb_le; exact H3).
    apply truthy_true in Hcat. rewrite Hcat in Hst3. exact Hst3.
  - intros Hlen Hhead Herr. rewrite Hcell2. f_equal.
    apply Hplain; assumption.
  - intros H3 Hcat Hlen Hhead Herr. rewrite Hcell3.
    rewrite decide_True by auto. f_equal. apply Hplain; assumption.
Qed.

Lemma output_cells_from_trimmed_fields_witness :
  ∃ stats sheet,
    Xl.convert Latin.unicode true (Content Sample.padded_price)
      = Xl.Returned stats sheet ∧
    sheet !! (2, 2)
      = Some {| Openpyxl.data_type_of := Openpyxl.TYPE_STRING;
                Openpyxl.value := [49; 48]%N |}.
Proof.
  destruct (Xl.convert Latin.unicode true (Content Sample.padded_price))
    as [stats sheet|e|] eqn:Hconv;
    try (vm_compute in Hconv; discriminate).
  exists stats, sheet. split; [reflexivity|].
  destruct (output_cells_from_trimmed_fields _ _ _ _ _ Hconv 0%nat
              (read_row 2 [[65; 112; 112; 108; 101]%N; [32; 49; 48]%N;
                           [32; 102; 114; 117; 105; 116; 32]%N])
              eq_refl)
    as (i & row & Hrow & Hr & _ & Hprice & _).
  destruct i as [|[|i]]; [|discriminate..].
  injection Hrow as <-. exact Hprice.
Defined.

(** C4 as stated fails: the parsed price " 10" and the parsed category
    " fruit " of the first data row reach the sheet as "10" and "fruit". *)
Lemma output_fields_verbatim_counterexample :
  ∃ ws row,
    (convert Latin.unicode (Content Sample.padded_price) None).2 = Some ws ∧
    Sample.padded_price !! 1%nat = Some row ∧
    row !! 1%nat = Some [32; 49; 48]%N ∧
    row !! 2%nat = Some [32; 102; 114; 117; 105; 116; 32]%N ∧
    ws !! (2, 2) = Some [49; 48]%N ∧
    ws !! (2, 3) = Some [102; 114; 117; 105; 116]%N ∧
    ws !! (2, 2) ≠ row !! 1%nat ∧
    ws !! (2, 3) ≠ row !! 2%nat.
Proof.
  eexists _, _. split; [vm_compute; reflexivity|].
  split; [reflexivity|]. repeat split; try (vm_compute; reflexivity);
    vm_compute; discriminate.
Qed.

(** What the library makes of three trimmed fields.  The price "=1+1" is
    kept as a formula cell. *)
Example formula_price_kept_as_formula :
  ∃ stats sheet,
    Xl.convert Latin.unicode true (Content Sample.formula_price)
      = Xl.Returned stats sheet ∧
    sheet !! (2, 2)
      = Some {| Openpyxl.data_type_of := Openpyxl.TYPE_FORMULA;
                Openpyxl.value := [61; 49; 43; 49]%N |}.
Proof. eexists _, _. split; vm_compute; reflexivity. Qed.

(** A price of 32,768 characters is in the sheet without its last
    character. *)
Example long_price_cut :
  ∃ stats sheet,
    Xl.convert Latin.unicode true (Content Sample.long_price)
      = Xl.Returned stats sheet ∧
    cell_text sheet 2 2 = Some (replicate 32767 49%N) ∧
    length <$> (tail Sample.long_price !! 0%nat ≫= (.!! 1%nat))
      = Some 32768%nat.
Proof. eexists _, _. repeat split; vm_compute; reflexivity. Qed.

(** A name with a control character ends the run before anything is
    saved. *)
Example control_character_aborts can_save :
  Xl.convert Latin.unicode can_save (Content Sample.control_name)
    = Xl.RaisedBeforeSave (Xl.Library Openpyxl.IllegalCharacterError).
Proof. destruct can_save; vm_compute; reflexivity. Qed.

(** ** Lines without fields *)

(** C8, as the code has it.  A line that parses to no field is yielded as a
    record with empty fields and takes the blank branch: it is counted among
    the rows read and among the empty rows skipped, and it is never written;
    the total of rows read is the number of lines after the header, lines
    without fields included. *)
Theorem zero_field_line_is_blank U rows d stats d' :
  convert U (Content rows) d = (inr stats, d') →
  total_rows_read stats = Z.of_nat (length (tail rows)) ∧
  ∀ i : nat, tail rows !! i = Some [] →
    dispositions U new_detector (read_rows 2 (tail rows)) !! i = Some Blank ∧
    ∀ c,
      process_record U c (read_row (2 + Z.of_nat i) []) =
        inr {| statistics := count_empty (count_row (statistics c));
               duplicate_detector := duplicate_detector c;
               excel_writer := excel_writer c |}.
Proof.
  intros Hconv. apply convert_inr in Hconv as (w & _ & _ & ->).
  cbn [total_rows_read]. rewrite read_rows_length.
  split; [reflexivity|]. intros i Hi. split; [|reflexivity].
  rewrite dispositions_lookup, read_rows_lookup, Hi. reflexivity.
Qed.

Lemma zero_field_line_is_blank_witness :
  dispositions Latin.unicode new_detector
    (read_rows 2 (tail Sample.blank_line)) !! 0%nat = Some Blank.
Proof.
  destruct (zero_field_line_is_blank Latin.unicode Sample.blank_line None
              _ _ eq_refl) as [_ H].
  apply (H 0%nat eq_refl).
Defined.

(** C8 as stated fails: for a header and one line without fields the line
    is counted among the rows read, although no line with a field was
    read. *)
Lemma zero_field_line_counted_counterexample :
  ∃ stats,
    (convert Latin.unicode (Content Sample.blank_line) None).1 = inr stats ∧
    total_rows_read stats = 1 ∧
    empty_rows_skipped stats = 1 ∧
    total_rows_read stats ≠
      Z.of_nat (length (filter (λ row, row ≠ []) (tail Sample.blank_line))).
Proof.
  eexists. split; [vm_compute; reflexivity|].
  repeat split. vm_compute. discriminate.
Qed.

(** ** The row limit *)

(** C6.  When the header row and the records to write are more rows than the
    sheet can take, the write of the first record beyond the limit raises,
    [convert] raises the same exception, and the output path is left as it
    was: [save] is not reached, the document built in memory is dropped.
    Over the library's sheet the run ends before [save] as well, whether or
    not a save would succeed: with the row limit error when the header has
    at most 18,278 columns and the library accepts the values of the
    records that fit, and with an exception of the library raised earlier
    otherwise. *)
Theorem row_limit_aborts U rows d :
  let kept := accepted U new_detector (read_rows 2 (tail rows)) in
  Config.MAX_EXCEL_ROWS < 1 + Z.of_nat (length kept) →
  convert U (Content rows) d = (inl RowLimitReached, d) ∧
  (∃ before r after w,
     kept = before ++ r :: after ∧
     write_all (new_writer (detect_column_count (Content rows))) before
       = inr w ∧
     _current_row w = Config.MAX_EXCEL_ROWS + 1 ∧
     write_record w r = inl RowLimitReached) ∧
  ∀ can_save, ∃ e,
    Xl.convert U can_save (Content rows) = Xl.RaisedBeforeSave e ∧
    (detect_column_count (Content rows) ≤ 18278 →
     Forall (λ r, Xl.storable_record (detect_column_count (Content rows)) r
                  = true)
            (take (Z.to_nat (Config.MAX_EXCEL_ROWS - 1)) kept) →
     e = Xl.Raised RowLimitReached).
Proof.
  intros kept Hlen. split; [|split].
  3:{ intros can_save. rewrite library_convert_content. cbv zeta.
      fold kept.
      destruct (18278 <? detect_column_count (Content rows)) eqn:Hcols.
      - apply Z.ltb_lt in Hcols. eexists. split; [reflexivity|]. lia.
      - destruct (fresh_write_all_long
                    (detect_column_count (Content rows)) kept)
          as (e & He & Hrow); [lia|].
        rewrite He. exists e. split; [reflexivity|].
        intros _. exact Hrow. }
  - rewrite convert_content. cbv zeta. fold kept.
    rewrite write_all_overflow; [reflexivity|..];
      cbn [new_writer _current_row]; unfold Config.MAX_EXCEL_ROWS in *; lia.
  - set (n := Z.to_nat (Config.MAX_EXCEL_ROWS - 1)).
    assert (Z.of_nat n = Config.MAX_EXCEL_ROWS - 1) as Hn
      by (unfold n, Config.MAX_EXCEL_ROWS; lia).
    destruct (kept !! n) as [r|] eqn:Hr.
    2:{ apply lookup_ge_None in Hr. lia. }
    exists (take n kept), r, (drop (S n) kept).
    destruct (write_all_fits (take n kept)
                (new_writer (detect_column_count (Content rows))))
      as [w Hw].
    { rewrite length_take. cbn [new_writer _current_row]. lia. }
    exists w. split; [symmetry; apply take_drop_middle; exact Hr|].
    split; [exact Hw|].
    apply write_all_inr in Hw as (Hrow & _ & _).
    rewrite length_take in Hrow. cbn [new_writer _current_row] in Hrow.
    assert (_current_row w = Config.MAX_EXCEL_ROWS + 1) as Hcur by lia.
    split; [exact Hcur|].
    unfold write_record. rewrite Hcur.
    rewrite (proj2 (Z.ltb_lt _ _)) by lia. reflexivity.
Qed.

(** ** Idempotence *)

(** C9.  Reading the sheet of a finished run back as rows (its header row
    and one row per record written) and converting those again admits every
    record and finds no duplicate: the second run reads as many rows as the
    first wrote, skips none and saves the same sheet.  The canonical keys of
    the records the first run admitted are pairwise distinct.  (A valid name
    has a non-empty key where lowercased NFKC keeps text.) *)
Theorem filter_idempotent U rows d stats ws d2 :
  keeps_text U →
  convert U (Content rows) d = (inr stats, Some ws) →
  convert U
    (Content (exported_rows (columns_detected stats)
                            (1 + unique_products_written stats) ws)) d2
  = (inr {| total_rows_read := unique_products_written stats;
            empty_rows_skipped := 0;
            invalid_rows_skipped := 0;
            duplicate_rows_skipped := 0;
            unique_products_written := unique_products_written stats;
            columns_detected := columns_detected stats |},
     Some ws) ∧
  NoDup (normalize_name U
           <$> accepted U new_detector (read_rows 2 (tail rows))).
Proof.
  intros HU Hconv.
  split; [|apply (accepted_keys U _ HU new_detector)].
  apply convert_inr in Hconv as (w & Hw & [= ->] & ->).
  cbn [columns_detected unique_products_written].
  set (columns := detect_column_count (Content rows)) in *.
  set (kept := accepted U new_detector (read_rows 2 (tail rows))) in *.
  assert (2 ≤ columns) as Hcolumns by apply detect_column_count_min.
  assert (Forall trimmed kept) as Hkept.
  { eapply Forall_forall. intros r Hr.
    eapply Forall_forall; [apply (read_rows_trimmed (tail rows) 2)|].
    eapply elem_of_sublist; [exact Hr|apply accepted_sublist]. }
  pose proof (exported_records columns kept w Hcolumns Hkept Hw) as Hrec.
  pose proof (exported_columns columns kept w Hcolumns Hw) as Hcol.
  set (sheet := exported_rows columns (1 + Z.of_nat (length kept))
                              (worksheet w)) in *.
  assert (dispositions U new_detector (read_rows 2 (tail sheet))
          = replicate (length (read_rows 2 (tail sheet))) Written) as Hos.
  { rewrite (dispositions_fields U _ kept).
    - unfold kept. rewrite dispositions_accepted. fold kept.
      rewrite (Forall2_length _ _ _ Hrec). reflexivity.
    - eapply Forall2_impl; [exact Hrec|]. cbn. naive_solver. }
  rewrite convert_content. cbv zeta. rewrite Hcol.
  rewrite (accepted_all U _ _ Hos).
  rewrite (write_all_fields _ kept (new_writer columns)) by exact Hrec.
  rewrite Hw, Hos, !occurrences_replicate.
  rewrite (Forall2_length _ _ _ Hrec).
  repeat (rewrite decide_False by discriminate).
  rewrite decide_True by reflexivity. reflexivity.
Qed.

Lemma filter_idempotent_witness :
  ∃ stats ws,
    convert Latin.unicode (Content Sample.scenario_A) None
      = (inr stats, Some ws) ∧
    (convert Latin.unicode
       (Content (exported_rows (columns_detected stats)
                               (1 + unique_products_written stats) ws))
       (Some ws)).1
    = inr {| total_rows_read := 2; empty_rows_skipped := 0;
             invalid_rows_skipped := 0; duplicate_rows_skipped := 0;
             unique_products_written := 2; columns_detected := 2 |}.
Proof.
  destruct (convert Latin.unicode (Content Sample.scenario_A) None)
    as [[e|stats] [ws|]] eqn:Hconv;
    try (vm_compute in Hconv; discriminate).
  exists stats, ws. split; [reflexivity|].
  destruct (filter_idempotent Latin.unicode Sample.scenario_A None stats ws
              (Some ws) latin_keeps_text Hconv) as [-> _].
  cbn [fst]. vm_compute in Hconv. injection Hconv as <- _. reflexivity.
Defined.

Lemma row_limit_aborts_witness :
  convert Latin.unicode
    (Content (Sample.many_rows (Z.to_nat Config.MAX_EXCEL_ROWS))) None
  = (inl RowLimitReached, None) ∧
  ∀ can_save,
    Xl.convert Latin.unicode can_save
      (Content (Sample.many_rows (Z.to_nat Config.MAX_EXCEL_ROWS)))
    = Xl.RaisedBeforeSave (Xl.Raised RowLimitReached).
Proof.
  destruct (row_limit_aborts Latin.unicode
              (Sample.many_rows (Z.to_nat Config.MAX_EXCEL_ROWS)) None)
    as (Hconv & _ & Hlib).
  { rewrite many_rows_accepted; unfold Config.MAX_EXCEL_ROWS; lia. }
  split; [exact Hconv|]. intros can_save.
  destruct (Hlib can_save) as (e & He & Hrow). rewrite He. f_equal.
  apply Hrow.
  - rewrite many_rows_columns. lia.
  - apply Forall_take. apply many_rows_storable.
    rewrite many_rows_columns. lia.
Defined.

(** ** Canonical keys *)

(** C1, as the code has it.  The canonical key is computed as trim, NFKC,
    lowercasing ([str.lower], not case folding) and collapsing whitespace
    runs to one space.  Two name fields that differ only in whitespace
    around and between their words, in the letter case of words of Basic
    Latin characters, or by Unicode compatibility variant have the same
    key, and when the record of the earlier one is admitted the record of
    the later one is classified duplicate.  (For NFKC and lowercasing that
    act word by word, keep text and lowercase Basic Latin as ASCII.) *)
Theorem variant_of_accepted_is_duplicate U rows (i j : nat) row_i row_j a b :
  word_by_word U → basic_latin U → keeps_text U →
  rows !! i = Some row_i → rows !! j = Some row_j → (i < j)%nat →
  row_i !! 0%nat = Some a → row_j !! 0%nat = Some b →
  name_variant U a b →
  let key r :=
    Py.join_space
      (Py.split (lower U (normalize_NFKC U (Py.strip (product_name r))))) in
  let ri := read_row (2 + Z.of_nat i) row_i in
  let rj := read_row (2 + Z.of_nat j) row_j in
  let os := dispositions U new_detector (read_rows 2 rows) in
  normalize_name U ri = normalize_name U rj ∧
  (os !! i = Some Written →
   normalize_name U ri = key ri ∧ normalize_name U rj = key rj ∧
   os !! j = Some Duplicate).
Proof.
  intros Hwords Hlatin Htext Hi Hj Hij Ha Hb Hvar key ri rj os.
  assert (product_name ri = Py.strip a) as Hni.
  { unfold ri. destruct row_i; [discriminate|].
    cbn [read_row product_name]. unfold stripped_field. rewrite Ha.
    reflexivity. }
  assert (product_name rj = Py.strip b) as Hnj.
  { unfold rj. destruct row_j; [discriminate|].
    cbn [read_row product_name]. unfold stripped_field. rewrite Hb.
    reflexivity. }
  assert (normalize_name U ri = normalize_name U rj) as Hkey.
  { rewrite !(normalize_name_word_key U Hwords)
      by (rewrite ?Hni, ?Hnj; apply strip_idem).
    rewrite Hni, Hnj, !word_key_strip.
    rewrite (variant_word_key U Hwords Hlatin a b Hvar). reflexivity. }
  split; [exact Hkey|]. intros Hadm.
  assert (read_rows 2 rows !! i = Some ri) as Hri
    by (rewrite read_rows_lookup, Hi; reflexivity).
  assert (read_rows 2 rows !! j = Some rj) as Hrj
    by (rewrite read_rows_lookup, Hj; reflexivity).
  assert (is_valid ri = true) as Hvi.
  { unfold os in Hadm. rewrite dispositions_lookup, Hri in Hadm.
    injection Hadm as Hadm. exact (accepted_is_valid U _ _ Hadm). }
  pose proof (valid_key_nonempty U ri Htext Hvi) as Hne.
  assert (product_name rj ≠ []) as Hnamej.
  { intros He. apply Hne. rewrite Hkey. unfold normalize_name.
    rewrite He. reflexivity. }
  assert (is_valid rj = true) as Hvj.
  { unfold is_valid. rewrite Hnj, strip_idem, <- Hnj.
    apply truthy_true. exact Hnamej. }
  split; [|split].
  - unfold normalize_name, key.
    rewrite (valid_name_truthy ri Hvi). reflexivity.
  - unfold normalize_name, key.
    rewrite (valid_name_truthy rj Hvj). reflexivity.
  - exact (later_same_key_duplicate U _ _ i j ri rj Hri Hrj Hij Hvi Hvj
             Hne Hkey).
Qed.

Lemma variant_of_accepted_is_duplicate_witness :
  dispositions Latin.unicode new_detector
    (read_rows 2 [[Sample.laptop_spaced; [49]%N];
                  [Sample.laptop_plain; [50]%N]]) !! 1%nat
  = Some Duplicate.
Proof.
  destruct (variant_of_accepted_is_duplicate Latin.unicode
              [[Sample.laptop_spaced; [49]%N]; [Sample.laptop_plain; [50]%N]]
              0%nat 1%nat
              [Sample.laptop_spaced; [49]%N] [Sample.laptop_plain; [50]%N]
              Sample.laptop_spaced Sample.laptop_plain
              latin_word_by_word latin_basic_latin latin_keeps_text
              eq_refl eq_refl ltac:(lia) eq_refl eq_refl) as [_ H].
  - apply variant_case. vm_compute.
    repeat (constructor;
            [right; repeat split; try reflexivity;
             repeat (constructor; [reflexivity|]); constructor|]).
    constructor.
  - apply H. reflexivity.
Defined.

(** C1 as stated fails: "Straße" and "STRASSE" differ only by case, and the
    key of the specification, which case-folds, is "strasse" for both; the
    code lowercases, its keys for the two names differ, and the later record
    is admitted like the earlier one. *)
Lemma case_fold_counterexample :
  spec_canonical_key (λ s, s) Latin.casefold Sample.strasse_mixed
    = spec_canonical_key (λ s, s) Latin.casefold Sample.strasse_upper ∧
  normalize_name Latin.unicode (Sample.record Sample.strasse_mixed [49]%N)
    ≠ normalize_name Latin.unicode (Sample.record Sample.strasse_upper [50]%N) ∧
  dispositions Latin.unicode new_detector
    (read_rows 2 [[Sample.strasse_mixed; [49]%N];
                  [Sample.strasse_upper; [50]%N]])
    = [Written; Written].
Proof.
  split; [vm_compute; reflexivity|].
  split; [vm_compute; discriminate|vm_compute; reflexivity].
Qed.

(** * Further properties of the code *)

(** ** The detector *)

(** X1.  The seen-set only grows and the duplicate count never goes down:
    a call of [is_duplicate] keeps every name seen before, and so does a
    whole run of the loop. *)
Theorem seen_set_grows U d :
  (∀ r, _seen_products d ⊆ _seen_products (is_duplicate U d r).2 ∧
        _duplicate_count d ≤ _duplicate_count (is_duplicate U d r).2) ∧
  (∀ records,
     _seen_products d ⊆ _seen_products (detector_after U d records) ∧
     _duplicate_count d ≤ _duplicate_count (detector_after U d records)).
Proof.
  split.
  - intros r. unfold is_duplicate.
    destruct (negb (Py.truthy (normalize_name U r)));
      [cbn [snd]; split; [reflexivity|lia]|].
    case_bool_decide; cbn [snd _seen_products _duplicate_count];
      split; try lia; [reflexivity|apply union_subseteq_r].
  - intros records. split.
    + intros k Hk. apply detector_after_seen. left. exact Hk.
    + rewrite detector_after_count.
      unfold occurrences. lia.
Qed.

(** X2.  [is_duplicate] registers what it checks: after a call for a record
    with a non-empty key the key is in the seen-set, and the next call for
    any record with that key answers yes and counts one more duplicate,
    leaving the seen-set as it is. *)
Theorem is_duplicate_registers U d r r' :
  normalize_name U r ≠ [] →
  normalize_name U r' = normalize_name U r →
  let d1 := (is_duplicate U d r).2 in
  normalize_name U r ∈ _seen_products d1 ∧
  is_duplicate U d1 r' =
    (true, {| _seen_products := _seen_products d1;
              _duplicate_count := _duplicate_count d1 + 1 |}).
Proof.
  intros Hne Hkey d1.
  assert (normalize_name U r ∈ _seen_products d1) as Hin.
  { unfold d1, is_duplicate. apply truthy_true in Hne. rewrite Hne.
    cbn [negb]. case_bool_decide; cbn [snd _seen_products]; [assumption|].
    apply elem_of_union. left. apply elem_of_singleton. reflexivity. }
  split; [exact Hin|].
  unfold is_duplicate at 1. rewrite Hkey.
  apply truthy_true in Hne. rewrite Hne. cbn [negb].
  rewrite bool_decide_eq_true_2 by exact Hin. reflexivity.
Qed.

Lemma is_duplicate_registers_witness :
  (is_duplicate Latin.unicode
     (is_duplicate Latin.unicode new_detector
        (Sample.record Sample.laptop_plain [49]%N)).2
     (Sample.record Sample.laptop_spaced [50]%N)).1 = true.
Proof.
  destruct (is_duplicate_registers Latin.unicode new_detector
              (Sample.record Sample.laptop_plain [49]%N)
              (Sample.record Sample.laptop_spaced [50]%N))
    as [_ ->]; [vm_compute; discriminate|vm_compute; reflexivity|].
  reflexivity.
Defined.

Lemma seen_size U records : keeps_text U → ∀ d,
  size (_seen_products (detector_after U d records)) =
    (size (_seen_products d) + length (accepted U d records))%nat.
Proof.
  intros HU. induction records as [|r records IH]; intros d.
  - cbn. lia.
  - cbn [detector_after accepted].
    destruct (classify U d r) as [o d'] eqn:Hc. cbn [snd]. rewrite IH.
    destruct (decide (o = Written)) as [->|Hne].
    + assert (is_valid r = true) as Hv
        by (apply (accepted_is_valid U d); rewrite Hc; reflexivity).
      pose proof (valid_key_nonempty U r HU Hv) as Hk.
      rewrite classify_valid in Hc by exact Hv.
      rewrite decide_False in Hc by exact Hk.
      destruct (decide (normalize_name U r ∈ _seen_products d));
        [discriminate|].
      injection Hc as <-. cbn [_seen_products length].
      rewrite size_union by set_solver. rewrite size_singleton. lia.
    + pose proof (classify_rejected_seen U d r) as H. rewrite Hc in H.
      cbn [fst snd] in H. rewrite (H Hne). lia.
Qed.

(** X3.  After a run of the loop on a fresh converter, the number of unique
    products the detector reports is the number of rows the writer reports
    (where lowercased NFKC keeps text, so that every valid name has a
    key). *)
Theorem unique_count_is_rows_written U s columns records c' :
  keeps_text U →
  process_records U
    {| statistics := s; duplicate_detector := new_detector;
       excel_writer := new_writer columns |} records = inr c' →
  get_unique_count (duplicate_detector c') = get_rows_written (excel_writer c').
Proof.
  intros HU. rewrite process_records_spec.
  cbn [statistics duplicate_detector excel_writer].
  destruct (write_all _ _) as [e|w] eqn:Hw; [discriminate|].
  intros H. injection H as <-.
  cbn [duplicate_detector excel_writer].
  apply write_all_inr in Hw as (Hrow & _ & _).
  unfold get_unique_count, get_rows_written.
  rewrite (seen_size U records HU), Hrow. cbn. rewrite size_empty. lia.
Qed.

Lemma unique_count_is_rows_written_witness :
  ∃ c',
    process_records Latin.unicode
      {| statistics := tally (tally
           {| total_rows_read := 0; empty_rows_skipped := 0;
              invalid_rows_skipped := 0; duplicate_rows_skipped := 0;
              unique_products_written := 0; columns_detected := 2 |}
           Blank) Invalid;
         duplicate_detector := new_detector;
         excel_writer := new_writer 2 |}
      (read_rows 2 (tail Sample.scenario_A)) = inr c' ∧
    get_unique_count (duplicate_detector c') = 2.
Proof.
  destruct (process_records Latin.unicode _ (read_rows 2 (tail Sample.scenario_A)))
    as [e|c'] eqn:Hc; [vm_compute in Hc; discriminate|].
  exists c'. split; [reflexivity|].
  rewrite (unique_count_is_rows_written _ _ _ _ _ latin_keeps_text Hc).
  vm_compute in Hc. injection Hc as <-. reflexivity.
Defined.

(** ** The reader *)

(** X4.  The reader yields one record per row after the skipped header, in
    order; the record of row [i] carries the trimmed first three fields of
    the row (empty where the row is shorter) and the number of its line,
    counted from 1 with the header. *)
Theorem read_records_rows rows skip_header :
  ∃ records,
    read_records (Content rows) skip_header = inr records ∧
    length records = (length rows - (if skip_header then 1 else 0))%nat ∧
    ∀ (i : nat) row,
      rows !! (i + (if skip_header then 1 else 0))%nat = Some row →
      ∃ r, records !! i = Some r ∧
           row_number r = Z.of_nat i + (if skip_header then 2 else 1) ∧
           product_name r = stripped_field row 0 ∧
           price r = stripped_field row 1 ∧
           category r = stripped_field row 2 ∧
           trimmed r.
Proof.
  eexists. split; [reflexivity|]. split.
  - rewrite read_rows_length. destruct skip_header, rows; cbn; lia.
  - intros i row Hrow. rewrite read_rows_lookup.
    assert ((if skip_header then tail rows else rows) !! i = Some row) as ->.
    { destruct skip_header.
      - rewrite lookup_tail. rewrite Nat.add_1_r in Hrow. exact Hrow.
      - rewrite Nat.add_0_r in Hrow. exact Hrow. }
    eexists. split; [reflexivity|].
    destruct (read_row_fields
                ((if skip_header then 2 else 1) + Z.of_nat i) row)
      as (Hn & Hp & Hc).
    repeat split; try assumption; try apply read_row_trimmed.
    destruct row, skip_header; cbn; lia.
Qed.

Lemma read_rows_take n rows :
  read_rows n (take 3 <$> rows) = read_rows n rows.
Proof.
  revert n. induction rows as [|row rows IH]; intros n; [reflexivity|].
  cbn [fmap list_fmap read_rows]. rewrite IH. f_equal.
  destruct row as [|a [|b [|c row]]]; reflexivity.
Qed.

(** X5.  Fields after the third are ignored: cutting every row after the
    header down to its first three fields changes nothing in what [convert]
    returns and saves. *)
Theorem extra_fields_ignored U header rows d :
  convert U (Content (header :: (take 3 <$> rows))) d =
  convert U (Content (header :: rows)) d.
Proof.
  rewrite !convert_content. cbn [tail]. cbv zeta.
  rewrite read_rows_take. rewrite !detect_column_count_cons. reflexivity.
Qed.

Lemma read_records_rows_witness :
  ∃ records r,
    read_records (Content Sample.scenario_A) true = inr records ∧
    records !! 1%nat = Some r ∧
    row_number r = 3 ∧ price r = [49; 48]%N.
Proof.
  destruct (read_records_rows Sample.scenario_A true)
    as (records & Hread & _ & H).
  destruct (H 1%nat [[97; 112; 112; 108; 101; 32]%N; [32; 49; 48]%N] eq_refl)
    as (r & Hr & Hnum & _ & Hprice & _).
  exists records, r. repeat split; assumption.
Defined.

(** ** The writer *)

(** X6.  A fresh writer has a header in each of the columns 1 to
    [column_count] of row 1 and no other cell; the first three headers are
    the fixed labels, the later ones end in the number of their column, and
    none is blank. *)
Theorem fresh_writer_headers columns :
  (∀ row column,
     worksheet (new_writer columns) !! (row, column) =
       if decide (row = 1 ∧ 1 ≤ column ≤ columns)
       then Some (header_text (column - 1)) else None) ∧
  (∀ i, header_text i =
          if decide (0 ≤ i ≤ 2)
          then default [] (Config.DEFAULT_HEADERS !! i)
          else [1587; 1578; 1608; 1606; 32]%N ++ Py.str_of_int (i + 1)) ∧
  (∀ i, non_blank (header_text i)) ∧
  get_rows_written (new_writer columns) = 0.
Proof.
  repeat split.
  - intros row column. cbn [new_writer worksheet].
    rewrite setup_headers_lookup, lookup_empty. reflexivity.
  - intros i. unfold header_text, Config.DEFAULT_HEADERS.
    rewrite !lookup_insert, lookup_empty.
    repeat case_decide; try reflexivity; lia.
  - intros i. apply truthy_strip_non_blank, header_text_truthy.
Qed.

(** X7.  Writing records leaves the header row as it is and puts nothing
    outside the rows of the records and the columns 1 to 3; on a sheet of
    fewer than three columns the third column of every record row stays
    empty.  The first two cells of the row of a record hold what the
    library keeps of its name and of its price: at most 32,767 characters,
    the first ones of the value. *)
Theorem data_rows_confined columns xw0 records xw :
  Xl.new_writer columns = inr xw0 →
  Xl.write_all xw0 records = inr xw →
  (∀ column, Xl.worksheet xw !! (1, column)
             = Xl.worksheet xw0 !! (1, column)) ∧
  (∀ row column,
     row ≠ 1 →
     row < 2 ∨ 2 + Z.of_nat (length records) ≤ row ∨ column < 1 ∨ 3 < column
     ∨ (column = 3 ∧ columns < 3) →
     Xl.worksheet xw !! (row, column) = None) ∧
  (∀ (k : nat) r, records !! k = Some r →
     Xl.worksheet xw !! (2 + Z.of_nat k, 1)
       = Some (Openpyxl.stored (product_name r)) ∧
     Xl.worksheet xw !! (2 + Z.of_nat k, 2)
       = Some (Openpyxl.stored (price r)) ∧
     cell_text (Xl.worksheet xw) (2 + Z.of_nat k) 1
       = Some (take 32767 (product_name r)) ∧
     cell_text (Xl.worksheet xw) (2 + Z.of_nat k) 2
       = Some (take 32767 (price r))).
Proof.
  intros H0 Hxw. rewrite library_new_writer in H0.
  destruct (18278 <? columns); [discriminate|]. injection H0 as <-.
  apply fresh_write_all_inr in Hxw as (_ & _ & _ & w & Hw & ->).
  cbn [library_writer Xl.worksheet]. unfold cell_text.
  assert (∀ (k : nat) r column, records !! k = Some r →
            (Openpyxl.stored <$> worksheet w) !! (2 + Z.of_nat k, column)
            = Openpyxl.stored <$> written_cell columns r column) as Hcell.
  { intros k r column Hk. rewrite lookup_fmap, (sheet_lookup _ _ _ _ _ Hw).
    rewrite decide_False by lia. rewrite decide_True by lia.
    replace (Z.to_nat (2 + Z.of_nat k - 2)) with k by lia. rewrite Hk.
    reflexivity. }
  split; [|split].
  - intros column. rewrite !lookup_fmap, (sheet_lookup _ _ _ _ _ Hw).
    rewrite decide_True by reflexivity.
    cbn [new_writer worksheet]. rewrite setup_headers_lookup, lookup_empty.
    repeat case_decide; try reflexivity; naive_solver lia.
  - intros row column Hrow Hout.
    rewrite lookup_fmap, (sheet_lookup _ _ _ _ _ Hw).
    rewrite decide_False by exact Hrow.
    case_decide as H2; [|reflexivity].
    destruct (records !! Z.to_nat (row - 2)) as [r|] eqn:Hr; [|reflexivity].
    apply lookup_lt_Some in Hr. cbn [mbind option_bind].
    unfold written_cell. repeat case_decide; try reflexivity; lia.
  - intros k r Hk. rewrite !(Hcell _ _ _ Hk). unfold written_cell.
    repeat split; reflexivity.
Qed.

Lemma data_rows_confined_witness :
  ∃ xw0 xw,
    Xl.new_writer 2 = inr xw0 ∧
    Xl.write_all xw0 [Sample.record Sample.laptop_plain [49]%N] = inr xw ∧
    Xl.worksheet xw !! (2, 3) = None.
Proof.
  destruct (Xl.new_writer 2) as [e|xw0] eqn:H0;
    [vm_compute in H0; discriminate|].
  destruct (Xl.write_all xw0 [Sample.record Sample.laptop_plain [49]%N])
    as [e|xw] eqn:Hw.
  { exfalso. revert Hw. vm_compute in H0. injection H0 as <-.
    vm_compute. discriminate. }
  exists xw0, xw. split; [reflexivity|]. split; [exact Hw|].
  destruct (data_rows_confined _ _ _ _ H0 Hw) as (_ & H & _).
  apply H; cbn; lia.
Defined.

(** X8.  A fresh writer takes [MAX_EXCEL_ROWS - 1] records and no more: a
    sequence of writes succeeds exactly when it is no longer than that and
    the library accepts every value written, the writer then reporting as
    many rows written as there were records.  A sequence that fails has
    raised at the row limit, being longer than that, or has met a value
    with a control character; a longer sequence of acceptable values raises
    at the row limit. *)
Theorem writer_capacity columns xw0 records :
  Xl.new_writer columns = inr xw0 →
  ((∃ xw, Xl.write_all xw0 records = inr xw) ↔
   Z.of_nat (length records) ≤ Config.MAX_EXCEL_ROWS - 1 ∧
   Forall (λ r, Xl.storable_record columns r = true) records) ∧
  (∀ xw, Xl.write_all xw0 records = inr xw →
     Xl.get_rows_written xw = Z.of_nat (length records)) ∧
  (∀ e, Xl.write_all xw0 records = inl e →
     (e = Xl.Raised RowLimitReached ∧
      Config.MAX_EXCEL_ROWS - 1 < Z.of_nat (length records)) ∨
     (e = Xl.Library Openpyxl.IllegalCharacterError ∧
      Exists (λ r, Xl.storable_record columns r = false) records)) ∧
  (Forall (λ r, Xl.storable_record columns r = true) records →
   Config.MAX_EXCEL_ROWS - 1 < Z.of_nat (length records) →
   Xl.write_all xw0 records = inl (Xl.Raised RowLimitReached)).
Proof.
  intros H0. rewrite library_new_writer in H0.
  destruct (18278 <? columns); [discriminate|]. injection H0 as <-.
  split; [|split; [|split]].
  - split.
    + intros [xw H]. apply fresh_write_all_inr in H as (? & ? & _). auto.
    + intros [Hlen Hall]. apply fresh_write_all_fits; assumption.
  - intros xw H. apply fresh_write_all_inr in H as (_ & _ & Hrow & _).
    unfold Xl.get_rows_written. lia.
  - intros e H. apply fresh_write_all_inl. exact H.
  - apply fresh_write_all_overflow.
Qed.

Lemma writer_capacity_witness :
  ∃ xw0 xw,
    Xl.new_writer 3 = inr xw0 ∧
    Xl.write_all xw0
      [Sample.record Sample.laptop_plain [49]%N;
       Sample.record Sample.strasse_upper []] = inr xw ∧
    Xl.get_rows_written xw = 2.
Proof.
  destruct (Xl.new_writer 3) as [e|xw0] eqn:H0;
    [vm_compute in H0; discriminate|].
  destruct (writer_capacity 3 xw0
              [Sample.record Sample.laptop_plain [49]%N;
               Sample.record Sample.strasse_upper []] H0)
    as ([_ Hfit] & Hrows & _).
  destruct Hfit as [xw Hw].
  { split; [unfold Config.MAX_EXCEL_ROWS; cbn; lia|].
    repeat constructor. }
  exists xw0, xw. split; [reflexivity|]. split; [exact Hw|].
  apply Hrows. exact Hw.
Defined.

(** ** The conversion *)



Lemma is_valid_read_row n m row :
  is_valid (read_row n row) = is_valid (read_row m row).
Proof. destruct row; reflexivity. Qed.

Lemma accepted_named_rows U rows : ∀ n m d,
  Forall2 same_fields
    (accepted U d (read_rows n (filter named_row rows)))
    (accepted U d (read_rows m rows)).
Proof.
  induction rows as [|row rows IH]; intros n m d; [constructor|].
  rewrite filter_cons. cbn [read_rows accepted].
  destruct (decide (named_row row)) as [Hv|Hv].
  - cbn [read_rows accepted].
    rewrite (classify_fields U d (read_row n row) (read_row m row))
      by (destruct row; reflexivity).
    destruct (classify U d (read_row m row)) as [o d'].
    destruct (decide (o = Written)); [|apply IH].
    constructor; [|apply IH]. destruct row; repeat split.
  - assert (is_valid (read_row m row) = false) as Hf.
    { unfold named_row in Hv. rewrite (is_valid_read_row m 0).
      destruct (is_valid (read_row 0 row)); congruence. }
    destruct (classify_invalid U d (read_row m row) Hf) as [Hd Ho].
    destruct (classify U d (read_row m row)) as [o d'].
    cbn [fst snd] in *. subst d'.
    destruct (decide (o = Written)) as [->|_];
      [destruct Ho; discriminate|].
    apply IH.
Qed.

(** X10.  Blank lines and rows without a name do not matter for the output:
    taking them out of the input leaves the saved sheet (or the failure to
    save one) as it is. *)
Theorem unnamed_rows_do_not_matter U header rows d :
  (convert U (Content (header :: filter named_row rows)) d).2 =
  (convert U (Content (header :: rows)) d).2 ∧
  (∀ e, (convert U (Content (header :: filter named_row rows)) d).1 = inl e ↔
        (convert U (Content (header :: rows)) d).1 = inl e).
Proof.
  rewrite !convert_content. cbn [tail]. cbv zeta.
  rewrite !detect_column_count_cons.
  rewrite (write_all_fields (accepted U new_detector
                               (read_rows 2 (filter named_row rows)))
             (accepted U new_detector (read_rows 2 rows))).
  - destruct (write_all _ _) as [e'|w]; cbn [fst snd]; split;
      try reflexivity; intros e; split; intros H; try discriminate;
      exact H.
  - eapply Forall2_impl; [apply accepted_named_rows|].
    intros r1 r2 (Hn & Hp & Hc). auto.
Qed.

Lemma accepted_all_seen U records : ∀ d,
  (∀ r, r ∈ records → is_valid r = true →
        normalize_name U r ≠ [] ∧ normalize_name U r ∈ _seen_products d) →
  accepted U d records = [].
Proof.
  induction records as [|r records IH]; intros d H; [reflexivity|].
  cbn [accepted]. destruct (classify U d r) as [o d'] eqn:Hc.
  assert (accepted U d' records = []) as Hrest.
  { apply IH. intros r' Hin Hv.
    destruct (H r' ltac:(apply elem_of_cons; auto) Hv) as [Hne Hseen].
    split; [exact Hne|].
    replace d' with (classify U d r).2 by (rewrite Hc; reflexivity).
    apply classify_seen. auto. }
  destruct (decide (o = Written)) as [->|_]; [|exact Hrest].
  exfalso.
  assert (is_valid r = true) as Hv
    by (apply (accepted_is_valid U d); rewrite Hc; reflexivity).
  destruct (H r ltac:(apply elem_of_cons; auto) Hv) as [Hne Hseen].
  rewrite classify_valid in Hc by exact Hv.
  rewrite decide_False, decide_True in Hc by assumption. discriminate.
Qed.

(** X12.  A detector remembers across passes: when the loop has run over
    some records, a second pass over the same records with the detector it
    left, and any writer, writes nothing and raises nothing (where
    lowercased NFKC keeps text, so that every valid name has a key). *)
Theorem second_pass_writes_nothing U c records c1 w :
  keeps_text U →
  process_records U c records = inr c1 →
  ∃ c2,
    process_records U
      {| statistics := statistics c1;
         duplicate_detector := duplicate_detector c1;
         excel_writer := w |} records = inr c2 ∧
    excel_writer c2 = w ∧
    total_rows_read (statistics c2)
      = total_rows_read (statistics c1) + Z.of_nat (length records).
Proof.
  intros HU H1. rewrite process_records_spec in H1.
  destruct (write_all _ _) as [e|w1]; [discriminate|].
  injection H1 as <-. cbn [statistics duplicate_detector].
  rewrite process_records_spec.
  cbn [statistics duplicate_detector excel_writer].
  rewrite accepted_all_seen.
  - cbn [write_all]. eexists. split; [reflexivity|].
    cbn [excel_writer statistics]. split; [reflexivity|].
    rewrite !tally_total, !dispositions_length. reflexivity.
  - intros r Hin Hv. split; [apply valid_key_nonempty; assumption|].
    apply detector_after_seen. right.
    apply list_elem_of_lookup in Hin as [i Hi]. exists i, r.
    repeat split; try assumption. apply valid_key_nonempty; assumption.
Qed.

Lemma second_pass_writes_nothing_witness :
  ∃ c1 c2,
    process_records Latin.unicode
      {| statistics := tally (tally
           {| total_rows_read := 0; empty_rows_skipped := 0;
              invalid_rows_skipped := 0; duplicate_rows_skipped := 0;
              unique_products_written := 0; columns_detected := 2 |}
           Blank) Invalid;
         duplicate_detector := new_detector;
         excel_writer := new_writer 2 |}
      (read_rows 2 (tail Sample.scenario_A)) = inr c1 ∧
    process_records Latin.unicode
      {| statistics := statistics c1;
         duplicate_detector := duplicate_detector c1;
         excel_writer := new_writer 2 |}
      (read_rows 2 (tail Sample.scenario_A)) = inr c2 ∧
    excel_writer c2 = new_writer 2.
Proof.
  destruct (process_records Latin.unicode _
              (read_rows 2 (tail Sample.scenario_A)))
    as [e|c1] eqn:Hc; [vm_compute in Hc; discriminate|].
  destruct (second_pass_writes_nothing _ _ _ _ (new_writer 2)
              latin_keeps_text Hc) as (c2 & H2 & Hw & _).
  exists c1, c2. auto.
Defined.

Lemma unnamed_rows_do_not_matter_witness :
  (convert Latin.unicode (Content [Sample.header]) None).2 =
  (convert Latin.unicode (Content Sample.scenario_B) None).2.
Proof.
  destruct (unnamed_rows_do_not_matter Latin.unicode Sample.header
              (tail Sample.scenario_B) None) as [H _].
  exact H.
Defined.

(** ** The canonical key *)

Lemma split_scan_app_word w s :
  Forall (λ c, Py.is_space c = false) w →
  Py.split_scan (w ++ s) = (w ++ (Py.split_scan s).1, (Py.split_scan s).2).
Proof.
  induction 1 as [|c w Hc _ IH].
  - cbn [app]. destruct (Py.split_scan s); reflexivity.
  - cbn [app Py.split_scan]. rewrite IH, Hc. reflexivity.
Qed.

Lemma split_join_words ws :
  Forall Py.is_word ws → Py.split (Py.join_space ws) = ws.
Proof.
  induction 1 as [|w ws Hw Hws IH]; [reflexivity|].
  cbn [Py.join_space]. destruct ws as [|w' ws];
    [apply split_word; exact Hw|].
  unfold Py.split in *. destruct Hw as [Hne Hw].
  rewrite split_scan_app_word by exact Hw.
  cbn [Py.split_scan fst snd].
  destruct (Py.split_scan (Py.join_space (w' :: ws))) as [v vs].
  change (Py.is_space 32%N) with true. cbn [fst snd].
  rewrite app_nil_r, IH. destruct w; [congruence|reflexivity].
Qed.

Lemma rstrip_word_app w s :
  Py.rstrip s ≠ [] → Py.rstrip (w ++ s) = w ++ Py.rstrip s.
Proof.
  intros Hs. induction w as [|c w IH]; [reflexivity|].
  cbn [app Py.rstrip]. rewrite IH.
  destruct (w ++ Py.rstrip s) eqn:E.
  - apply app_eq_nil in E as [_ E]. congruence.
  - cbn [Py.truthy negb]. rewrite andb_false_r. reflexivity.
Qed.

Lemma rstrip_word w :
  Forall (λ c, Py.is_space c = false) w → Py.rstrip w = w.
Proof.
  induction 1 as [|c w Hc _ IH]; [reflexivity|].
  cbn [Py.rstrip]. rewrite IH, Hc. reflexivity.
Qed.

Lemma rstrip_join_words ws :
  Forall Py.is_word ws → Py.rstrip (Py.join_space ws) = Py.join_space ws.
Proof.
  induction 1 as [|w ws [Hne Hw] Hws IH]; [reflexivity|].
  cbn [Py.join_space]. destruct ws as [|w' ws]; [apply rstrip_word, Hw|].
  assert (Py.join_space (w' :: ws) ≠ []) as Hj.
  { intros E. apply join_space_nil in E; [discriminate|exact Hws]. }
  rewrite rstrip_word_app.
  - cbn [Py.rstrip]. rewrite IH.
    destruct (Py.join_space (w' :: ws)); [congruence|].
    cbn [Py.truthy negb]. rewrite andb_false_r. reflexivity.
  - cbn [Py.rstrip]. rewrite IH.
    destruct (Py.join_space (w' :: ws)); [congruence|].
    cbn [Py.truthy negb]. rewrite andb_false_r. discriminate.
Qed.

Lemma lstrip_join_words ws :
  Forall Py.is_word ws → Py.lstrip (Py.join_space ws) = Py.join_space ws.
Proof.
  intros H. destruct H as [|w ws' [Hne Hw] _]; [reflexivity|].
  destruct Hw as [|c w Hc _]; [congruence|].
  cbn [Py.join_space]. destruct ws'; cbn [app Py.lstrip]; rewrite Hc;
    reflexivity.
Qed.

(** X13.  The canonical key is whitespace-normal: collapsing its whitespace
    again or trimming it changes nothing.  It has no whitespace at its ends,
    and its words are separated by one space each. *)
Theorem key_is_collapsed U r :
  Py.join_space (Py.split (normalize_name U r)) = normalize_name U r ∧
  Py.strip (normalize_name U r) = normalize_name U r ∧
  Forall Py.is_word (Py.split (normalize_name U r)).
Proof.
  unfold normalize_name.
  destruct (negb (Py.truthy (product_name r))).
  - repeat split. constructor.
  - pose proof (split_words
      (lower U (normalize_NFKC U (Py.strip (product_name r))))) as Hws.
    cbv zeta. rewrite split_join_words by exact Hws.
    split; [reflexivity|]. split; [|exact Hws].
    unfold Py.strip. rewrite rstrip_join_words by exact Hws.
    apply lstrip_join_words. exact Hws.
Qed.

(** ** The path typed by the user *)

Section strip_by.
Context (f : Py.char → bool).

Lemma lstrip_by_prefix a s :
  Forall (λ c, f c = true) a → lstrip_by f (a ++ s) = lstrip_by f s.
Proof.
  induction 1 as [|c a Hc _ IH]; [reflexivity|].
  cbn [app lstrip_by]. rewrite Hc. exact IH.
Qed.

Lemma lstrip_by_head s c :
  head s = Some c → f c = false → lstrip_by f s = s.
Proof.
  destruct s as [|c' s]; [discriminate|]. intros [= ->] Hc.
  cbn [lstrip_by]. rewrite Hc. reflexivity.
Qed.

Lemma rstrip_by_all b : Forall (λ c, f c = true) b → rstrip_by f b = [].
Proof.
  induction 1 as [|c b Hc _ IH]; [reflexivity|].
  cbn [rstrip_by]. rewrite IH, Hc. reflexivity.
Qed.

Lemma rstrip_by_suffix s b :
  Forall (λ c, f c = true) b → rstrip_by f (s ++ b) = rstrip_by f s.
Proof.
  intros Hb. induction s as [|c s IH]; [apply rstrip_by_all, Hb|].
  cbn [app rstrip_by]. rewrite IH. reflexivity.
Qed.

Lemma rstrip_by_last s c :
  last s = Some c → f c = false → rstrip_by f s = s.
Proof.
  induction s as [|c' s IH]; [discriminate|]. intros Hl Hc.
  cbn [rstrip_by]. destruct s as [|c'' s].
  - injection Hl as ->. cbn [rstrip_by Py.truthy negb]. rewrite Hc.
    reflexivity.
  - rewrite IH by assumption. cbn [Py.truthy negb].
    rewrite andb_false_r. reflexivity.
Qed.

Lemma strip_by_middle a s b c c' :
  head s = Some c → last s = Some c' → f c = false → f c' = false →
  Forall (λ x, f x = true) a → Forall (λ x, f x = true) b →
  lstrip_by f (rstrip_by f (a ++ s ++ b)) = s.
Proof.
  intros Hh Hl Hc Hc' Ha Hb.
  rewrite app_assoc, rstrip_by_suffix by exact Hb.
  rewrite (rstrip_by_last (a ++ s) c').
  - rewrite lstrip_by_prefix by exact Ha. exact (lstrip_by_head s c Hh Hc).
  - rewrite last_app, Hl. reflexivity.
  - exact Hc'.
Qed.

Lemma strip_by_bare s c c' :
  head s = Some c → last s = Some c' → f c = false → f c' = false →
  lstrip_by f (rstrip_by f s) = s.
Proof.
  intros Hh Hl Hc Hc'. rewrite (rstrip_by_last s c' Hl Hc').
  exact (lstrip_by_head s c Hh Hc).
Qed.

End strip_by.

Lemma strip_by_space s :
  Py.strip s = lstrip_by Py.is_space (rstrip_by Py.is_space s).
Proof.
  unfold Py.strip.
  assert (∀ t, Py.rstrip t = rstrip_by Py.is_space t) as ->.
  { induction t as [|c t IH]; [reflexivity|].
    cbn [Py.rstrip rstrip_by]. rewrite IH. reflexivity. }
  generalize (rstrip_by Py.is_space s). intros t.
  induction t as [|c t IH]; [reflexivity|].
  cbn [Py.lstrip lstrip_by]. rewrite IH. reflexivity.
Qed.

Lemma strip_by_chars chars s :
  strip_chars chars s =
    lstrip_by (λ c, bool_decide (c ∈ chars))
      (rstrip_by (λ c, bool_decide (c ∈ chars)) s).
Proof.
  unfold strip_chars.
  assert (∀ t, rstrip_chars chars t
               = rstrip_by (λ c, bool_decide (c ∈ chars)) t) as ->.
  { induction t as [|c t IH]; [reflexivity|].
    cbn [rstrip_chars rstrip_by]. rewrite IH. reflexivity. }
  generalize (rstrip_by (λ c, bool_decide (c ∈ chars)) s). intros t.
  induction t as [|c t IH]; [reflexivity|].
  cbn [lstrip_chars lstrip_by]. rewrite IH. reflexivity.
Qed.

(** X14.  The path is unwrapped: for a path that has neither whitespace
    nor a quote at its ends, typed with whitespace around it, or in double
    quotes, or in single quotes, with whitespace around those, the cleaned
    text is the path itself; and the cleaned text never has whitespace at
    its ends. *)
Theorem normalize_user_path_unwraps p before after :
  bare_path p →
  Forall (λ c, Py.is_space c = true) before →
  Forall (λ c, Py.is_space c = true) after →
  normalize_user_path (before ++ p ++ after) = p ∧
  normalize_user_path (before ++ (34%N :: p ++ [34%N]) ++ after) = p ∧
  normalize_user_path (before ++ (39%N :: p ++ [39%N]) ++ after) = p ∧
  ∀ raw, Py.strip (normalize_user_path raw) = normalize_user_path raw.
Proof.
  intros (c & c' & Hh & Hl & Hc & Hc' & Hq & Hq') Hb Ha.
  assert (∀ q, q ∈ [34; 39]%N →
          bool_decide (c ∈ [q]) = false ∧ bool_decide (c' ∈ [q]) = false)
    as Hnq.
  { intros q Hin. split; apply bool_decide_eq_false_2; intros H;
      apply list_elem_of_singleton in H; subst; contradiction. }
  assert (∀ q, q ∈ [34; 39]%N → strip_chars [q] p = p) as Hbare.
  { intros q Hin. destruct (Hnq q Hin) as [H1 H2].
    rewrite strip_by_chars.
    exact (strip_by_bare _ p c c' Hh Hl H1 H2). }
  assert (Py.strip p = p) as Hstrip.
  { rewrite strip_by_space.
    exact (strip_by_bare _ p c c' Hh Hl Hc Hc'). }
  assert (∀ q, q ∈ [34; 39]%N →
          Py.strip (before ++ (q :: p ++ [q]) ++ after) = q :: p ++ [q])
    as Hquoted.
  { intros q Hin. rewrite strip_by_space.
    apply (strip_by_middle _ before _ after q q); try assumption.
    - reflexivity.
    - rewrite last_cons, last_app. reflexivity.
    - repeat (apply elem_of_cons in Hin as [->|Hin]; [reflexivity|]).
      inversion Hin.
    - repeat (apply elem_of_cons in Hin as [->|Hin]; [reflexivity|]).
      inversion Hin. }
  assert (∀ q, strip_chars [q] (q :: p ++ [q]) =
               lstrip_by (λ x, bool_decide (x ∈ [q]))
                 (rstrip_by (λ x, bool_decide (x ∈ [q])) ([q] ++ p ++ [q])))
    as Hform by (intros q; apply strip_by_chars).
  assert (34%N ∈ [34; 39]%N) as H34 by (apply elem_of_cons; auto).
  assert (39%N ∈ [34; 39]%N) as H39
    by (apply elem_of_cons; right; apply elem_of_cons; auto).
  unfold normalize_user_path. unfold Py.str, Py.char in *. repeat split.
  - rewrite (strip_by_space (before ++ p ++ after)).
    rewrite (strip_by_middle _ before p after c c') by assumption.
    rewrite !Hbare by assumption. exact Hstrip.
  - rewrite (Hquoted 34%N H34), Hform.
    destruct (Hnq 34%N H34) as [H1 H2].
    rewrite (strip_by_middle _ [34%N] p [34%N] c c' Hh Hl H1 H2);
      [|repeat constructor..].
    rewrite Hbare by exact H39. exact Hstrip.
  - rewrite (Hquoted 39%N H39).
    rewrite (strip_by_chars [34%N] (39%N :: p ++ [39%N])).
    rewrite (strip_by_bare _ (39%N :: p ++ [39%N]) 39%N 39%N);
      [|reflexivity|rewrite last_cons, last_app; reflexivity
       |reflexivity|reflexivity].
    rewrite Hform. destruct (Hnq 39%N H39) as [H1 H2].
    rewrite (strip_by_middle _ [39%N] p [39%N] c c' Hh Hl H1 H2);
      [|repeat constructor..].
    exact Hstrip.
  - intros raw. apply strip_idem.
Qed.

Lemma normalize_user_path_unwraps_witness :
  normalize_user_path
    ([32; 32]%N ++ (34%N :: [67; 58; 92; 97; 32; 98; 46; 99; 115; 118]%N
                      ++ [34%N]) ++ [32]%N)
  = [67; 58; 92; 97; 32; 98; 46; 99; 115; 118]%N.
Proof.
  destruct (normalize_user_path_unwraps
              [67; 58; 92; 97; 32; 98; 46; 99; 115; 118]%N
              [32; 32]%N [32]%N) as (_ & H & _).
  - exists 67%N, 118%N. repeat split; try reflexivity;
      intros H; repeat (apply elem_of_cons in H as [H|H]; [discriminate|]);
      inversion H.
  - repeat constructor.
  - repeat constructor.
  - exact H.
Defined.

(** ** Order of the input *)

(** X15.  Reordering the records changes which of several records with one
    key is kept, not what is known or how much is written: the seen-set
    after the run is the same, and, where lowercased NFKC keeps text, so is
    the number of records admitted. *)
Theorem written_count_order_independent U d records1 records2 :
  records1 ≡ₚ records2 →
  _seen_products (detector_after U d records1)
    = _seen_products (detector_after U d records2) ∧
  (keeps_text U →
   length (accepted U d records1) = length (accepted U d records2)).
Proof.
  intros Hperm.
  assert (_seen_products (detector_after U d records1)
          = _seen_products (detector_after U d records2)) as Hseen.
  { apply set_eq. intros k. rewrite !detector_after_seen.
    split; (intros [H|(i & r & Hi & H)]; [left; exact H|]); right;
      apply list_elem_of_lookup_2 in Hi;
      [rewrite Hperm in Hi|rewrite <- Hperm in Hi];
      apply list_elem_of_lookup in Hi as [j Hj]; eauto. }
  split; [exact Hseen|]. intros HU.
  pose proof (seen_size U records1 HU d) as H1.
  pose proof (seen_size U records2 HU d) as H2.
  rewrite Hseen in H1. lia.
Qed.

Lemma written_count_order_independent_witness :
  length (accepted Latin.unicode new_detector
            [Sample.record Sample.laptop_plain [49]%N;
             Sample.record Sample.laptop_spaced [50]%N])
  = length (accepted Latin.unicode new_detector
              [Sample.record Sample.laptop_spaced [50]%N;
               Sample.record Sample.laptop_plain [49]%N]).
Proof.
  destruct (written_count_order_independent Latin.unicode new_detector
              [Sample.record Sample.laptop_plain [49]%N;
               Sample.record Sample.laptop_spaced [50]%N]
              [Sample.record Sample.laptop_spaced [50]%N;
               Sample.record Sample.laptop_plain [49]%N]) as [_ H].
  - apply perm_swap.
  - exact (H latin_keeps_text).
Defined.
